(** * scripts/pre_commit_linter.py: the pre-commit lint orchestration script

    A shallow embedding of the script: module-level set-up, the two
    file-collection helpers, the JavaScript and Python lint drivers and
    [_pre_commit_linter] itself.  The operating system, git, the jscs child
    processes and pylint are an explicit environment ([Env]); the script's
    effects (printing, spawning processes, [sys.exit], uncaught exceptions)
    are threaded through a small monad that records the events of a run. *)

From Stdlib Require Import List String Ascii ZArith Lia Bool Arith DecimalString.
Import ListNotations.
Open Scope string_scope.

(** ** Python string and path primitives used by the script *)

Module Py.

(** [if s:] on a [str]: the empty string is false, every other is true. *)
Definition truthy (s : string) : bool := negb (s =? "").

(** [s.endswith(suffix)]. *)
Definition endswith (s suffix : string) : bool :=
  let n := String.length s in
  let m := String.length suffix in
  if (m <=? n)%nat then substring (n - m) m s =? suffix else false.

(** [s.startswith(p)]. *)
Definition startswith (s p : string) : bool := prefix p s.

(** [sep.join(l)]. *)
Definition join (sep : string) (l : list string) : string := concat sep l.

(** ['%d' % n] and ['%s' % n] for a non-negative [int]. *)
Definition str (n : nat) : string :=
  NilZero.string_of_uint (Nat.to_uint n).

Definition LF : ascii := ascii_of_nat 10.
Definition CR : ascii := ascii_of_nat 13.

(** [str.splitlines()] of a Python 2 byte string: lines end at "\n", "\r"
    or "\r\n", the line ends are dropped, and text after the last line end
    is a line only when it is not empty.  [cur] is the line read so far. *)
Fixpoint splitlines_from (cur s : string) : list string :=
  match s with
  | EmptyString => if cur =? "" then [] else [cur]
  | String c s' =>
      if Ascii.eqb c LF then cur :: splitlines_from "" s'
      else if Ascii.eqb c CR then
        match s' with
        | String c' s'' =>
            if Ascii.eqb c' LF then cur :: splitlines_from "" s''
            else cur :: splitlines_from "" s'
        | EmptyString => [cur]
        end
      else splitlines_from (cur ++ String c "") s'
  end.

Definition splitlines (s : string) : list string := splitlines_from "" s.

(** [os.path.join(a, *p)] of posixpath. *)
Definition os_path_join (a : string) (p : list string) : string :=
  fold_left
    (fun path b =>
       if startswith b "/" then b
       else if (path =? "") || endswith path "/" then path ++ b
       else path ++ "/" ++ b)
    p a.

(** [os.pardir]. *)
Definition os_pardir : string := "..".

End Py.

(** ** The environment of a run *)

(** What [lint.Run(args)] of pylint does to its caller: it returns, it raises
    [SystemExit] (kept as [str(e)], which is all the script looks at), or it
    raises some other exception. *)
Inductive LintRunOutcome : Type :=
| RunReturns
| RunSystemExit (str_e : string)
| RunRaises (exn : string).

Record Env : Type := {
  (** [os.getcwd()] *)
  os_getcwd : string;
  (** [os.path.abspath], [os.path.relpath], [os.path.exists],
      [os.path.isfile] *)
  os_path_abspath : string -> string;
  os_path_relpath : string -> string -> string;
  os_path_exists : string -> bool;
  os_path_isfile : string -> bool;
  (** [os.walk(top)]: the (dirpath, dirnames, filenames) triples in order *)
  os_walk : string -> list (string * list string * list string);
  (** [_PARSER.parse_args().path] for a command line that the parser
      accepts: [None] when --path is not given.  A command line that the
      parser refuses makes [parse_args] end the process itself (status 2);
      such runs are not runs of this model. *)
  parsed_args_path : option string;
  (** [subprocess.check_output(argv)]: the captured standard output, or
      [None] when the call raises (non-zero exit status of the child) *)
  subprocess_check_output : list string -> option string;
  (** [subprocess.Popen(argv, ...).communicate()] of the child process that
      is spawned after [n] earlier ones: (stdout, stderr).  The child
      process is one that could be started: [Popen] raising [OSError]
      because the program cannot be executed is not part of this model. *)
  communicate : nat -> list string -> string * string;
  (** [lint.Run(args)] *)
  lint_Run : list string -> LintRunOutcome;
  (** ['%.1f' % (time.time() - start_time)] at the end of
      [_lint_js_files] and of [_lint_py_files] *)
  js_secs : string;
  py_secs : string
}.

(** ** Effects *)

Inductive Event : Type :=
| Print (text : string)
| CheckOutput (argv : list string)
| Popen (argv : list string)
| LintRun (args : list string).

(** How a computation ends: with a value, with [sys.exit(code)] reaching the
    top level, or with another uncaught exception. *)
Inductive Result (A : Type) : Type :=
| Ret (a : A)
| Exit (code : Z)
| Raise (exn : string).
Arguments Ret {A} a.
Arguments Exit {A} code.
Arguments Raise {A} exn.

(** A finished (part of a) run: the events in order, the number of child
    processes spawned so far, and the way it ended. *)
Record Run (A : Type) : Type := mkRun {
  events : list Event;
  procs : nat;
  result : Result A
}.
Arguments mkRun {A} events procs result.
Arguments events {A} r.
Arguments procs {A} r.
Arguments result {A} r.

(** A computation starts from the number of processes spawned before it. *)
Definition M (A : Type) : Type := nat -> Run A.

Definition ret {A} (a : A) : M A := fun n => mkRun [] n (Ret a).

Definition bind {A B} (m : M A) (k : A -> M B) : M B :=
  fun n =>
    let r1 := m n in
    match result r1 with
    | Ret a =>
        let r2 := k a (procs r1) in
        mkRun (events r1 ++ events r2)%list (procs r2) (result r2)
    | Exit c => mkRun (events r1) (procs r1) (Exit c)
    | Raise e => mkRun (events r1) (procs r1) (Raise e)
    end.

Declare Scope py_scope.
Delimit Scope py_scope with py.
Notation "x <- m ;; k" := (bind m (fun x => k))
  (at level 61, m at next level, right associativity) : py_scope.
Notation "m ;; k" := (bind m (fun _ => k))
  (at level 61, right associativity) : py_scope.
Open Scope py_scope.

(** [print text] *)
Definition print (text : string) : M unit :=
  fun n => mkRun [Print text] n (Ret tt).

(** [sys.exit(code)] *)
Definition sys_exit {A} (code : Z) : M A :=
  fun n => mkRun [] n (Exit code).

(** The exit status of the process for a run of the whole script: 0 when the
    script runs to its end, the argument of [sys.exit], 1 after an uncaught
    exception. *)
Definition exit_status {A} (r : Result A) : Z :=
  match r with
  | Ret _ => 0
  | Exit c => c
  | Raise _ => 1
  end.

(** ** The script *)

Section Script.

Variable env : Env.

(** [subprocess.check_output(argv)]; a failing child raises
    [CalledProcessError], which the script never catches. *)
Definition check_output (argv : list string) : M string :=
  fun n =>
    match subprocess_check_output env argv with
    | Some out => mkRun [CheckOutput argv] n (Ret out)
    | None => mkRun [CheckOutput argv] n (Raise "CalledProcessError")
    end.

(** [subprocess.Popen(argv, stdout=PIPE, stderr=PIPE)] followed by
    [proc.communicate()], for a child process that is started and runs to
    its end. *)
Definition Popen_communicate (argv : list string) : M (string * string) :=
  fun n => mkRun [Popen argv] (S n) (Ret (communicate env n argv)).

(** *** Module level (lines 57-66)

    The import of pylint that follows (line 69) is taken to succeed when
    the directory is there. *)

Definition _PARENT_DIR : string :=
  os_path_abspath env (Py.os_path_join (os_getcwd env) [Py.os_pardir]).

Definition _PYLINT_PATH : string :=
  Py.os_path_join _PARENT_DIR ["oppia_tools"; "pylint-1.5.2"].

Definition module_level : M unit :=
  if negb (os_path_exists env _PYLINT_PATH) then
    print "" ;;
    print "ERROR    Please run start.sh first to install pylint " ;;
    print "         and its dependencies." ;;
    sys_exit 1
  else ret tt.

(** *** [_get_changed_filenames] *)
Definition _get_changed_filenames : M (list string) :=
  unstaged_files <- check_output ["git"; "diff"; "--name-only"] ;;
  staged_files <- check_output
    ["git"; "diff"; "--cached"; "--name-only"; "--diff-filter=ACM"] ;;
  ret (Py.splitlines unstaged_files ++ Py.splitlines staged_files)%list.

(** *** [_get_all_files_in_directory] *)
Definition _get_all_files_in_directory (dir_path : string) : list string :=
  flat_map
    (fun '(_dir, _, files) =>
       map (fun file_name =>
              os_path_relpath env
                (Py.os_path_join _dir [file_name]) (os_getcwd env))
           files)
    (os_walk env dir_path).

(** *** [_lint_js_files] *)

(** The [for ind, filename in enumerate(files_to_lint)] loop, from index
    [ind] on, with the running [num_files_with_errors]; it gives the final
    count. *)
Fixpoint lint_js_loop (jscs_cmd_args : list string) (num_js_files : nat)
    (ind : nat) (files_to_lint : list string)
    (num_files_with_errors : nat) : M nat :=
  match files_to_lint with
  | [] => ret num_files_with_errors
  | filename :: rest =>
      print ("Linting file " ++ Py.str (ind + 1) ++ "/"
             ++ Py.str num_js_files ++ ": " ++ filename ++ " ...") ;;
      let proc_args := (jscs_cmd_args ++ [filename])%list in
      out <- Popen_communicate proc_args ;;
      let linter_stdout := fst out in
      let linter_stderr := snd out in
      if Py.truthy linter_stderr then
        print "LINTER FAILED" ;;
        print linter_stderr ;;
        sys_exit 1
      else
        num_files_with_errors' <-
          (if Py.truthy linter_stdout then
             print linter_stdout ;;
             ret (num_files_with_errors + 1)
           else ret num_files_with_errors) ;;
        lint_js_loop jscs_cmd_args num_js_files (S ind) rest
          num_files_with_errors'
  end.

Definition _lint_js_files (node_path jscs_path config_jscsrc : string)
    (files_to_lint : list string) : M string :=
  print "----------------------------------------" ;;
  let num_files_with_errors := 0 in
  let num_js_files := List.length files_to_lint in
  match files_to_lint with
  | [] =>
      print "There are no JavaScript files to lint." ;;
      print "----------------------------------------" ;;
      ret ""
  | _ =>
      let jscs_cmd_args := [node_path; jscs_path; config_jscsrc] in
      num_files_with_errors <-
        lint_js_loop jscs_cmd_args num_js_files 0 files_to_lint
          num_files_with_errors ;;
      print "----------------------------------------" ;;
      if negb (num_files_with_errors =? 0)%nat then
        ret ("FAILED    " ++ Py.str num_files_with_errors
             ++ " JavaScript files")
      else
        ret ("SUCCESS   " ++ Py.str num_js_files
             ++ " JavaScript files linted (" ++ js_secs env ++ " secs)")
  end.

(** *** [_lint_py_files] *)

(** The [try: lint.Run(...) except SystemExit as e: ...] statement: it
    gives the new value of [are_there_errors]. *)
Definition try_lint_Run (args : list string) (are_there_errors : bool)
    : M bool :=
  fun n =>
    match lint_Run env args with
    | RunReturns => mkRun [LintRun args] n (Ret are_there_errors)
    | RunSystemExit str_e =>
        mkRun [LintRun args] n
          (Ret (if negb (str_e =? "0") then true else are_there_errors))
    | RunRaises exn => mkRun [LintRun args] n (Raise exn)
    end.

Definition _lint_py_files (config_pylint : string)
    (files_to_lint : list string) : M string :=
  print "----------------------------------------" ;;
  let are_there_errors := false in
  let num_py_files := List.length files_to_lint in
  match files_to_lint with
  | [] =>
      print "There are no Python files to lint." ;;
      print "----------------------------------------" ;;
      ret ""
  | _ =>
      print ("Linting " ++ Py.str num_py_files ++ " files"
             ++ String Py.LF "") ;;
      are_there_errors <-
        try_lint_Run (files_to_lint ++ [config_pylint])%list
          are_there_errors ;;
      print "----------------------------------------" ;;
      if are_there_errors then ret "FAILED    Python linting failed"
      else
        ret ("SUCCESS   " ++ Py.str num_py_files
             ++ " Python files linted (" ++ py_secs env ++ " secs)")
  end.

(** *** [_pre_commit_linter] *)

(** [if x:] for [parsed_args.path], which is [None] or a [str]. *)
Definition truthy_path (input_path : option string) : bool :=
  match input_path with
  | Some p => Py.truthy p
  | None => false
  end.

(** Lines 217-219. *)
Definition check_root_directory : M unit :=
  if negb (Py.endswith (os_getcwd env) "oppia") then
    print "" ;;
    print "ERROR    Please run this script from the oppia root directory."
  else ret tt.

(** Lines 221-228, from the parsed arguments on: the value of [input_path]
    after the first [if input_path:] statement. *)
Definition resolve_input_path : M (option string) :=
  let input_path := parsed_args_path env in
  match input_path with
  | Some path =>
      if Py.truthy path then
        let input_path := Py.os_path_join (os_getcwd env) [path] in
        if negb (os_path_exists env input_path) then
          print ("Could not locate file or directory " ++ input_path
                 ++ ". Exiting.") ;;
          print "----------------------------------------" ;;
          sys_exit 0
        else ret (Some input_path)
      else ret input_path
  | None => ret input_path
  end.

(** Lines 230-241. *)
Definition parent_dir : string :=
  os_path_abspath env (Py.os_path_join (os_getcwd env) [Py.os_pardir]).
Definition jscsrc_path : string :=
  Py.os_path_join (os_getcwd env) [".jscsrc"].
Definition pylintrc_path : string :=
  Py.os_path_join (os_getcwd env) [".pylintrc"].
Definition config_jscsrc : string := "--config=" ++ jscsrc_path.
Definition config_pylint : string := "--rcfile=" ++ pylintrc_path.
Definition node_path : string :=
  Py.os_path_join parent_dir ["oppia_tools"; "node-4.2.1"; "bin"; "node"].
Definition jscs_path : string :=
  Py.os_path_join parent_dir ["node_modules"; "jscs"; "bin"; "jscs"].

(** Lines 243-246. *)
Definition check_jscs_installed : M unit :=
  if negb (os_path_exists env jscs_path) then
    print "" ;;
    print "ERROR    Please run start.sh first to install node-jscs " ;;
    print "         and its dependencies."
  else ret tt.

(** Lines 248-254: [all_files]. *)
Definition collect_all_files (input_path : option string)
    : M (list string) :=
  match input_path with
  | Some path =>
      if Py.truthy path then
        if os_path_isfile env path then ret [path]
        else ret (_get_all_files_in_directory path)
      else _get_changed_filenames
  | None => _get_changed_filenames
  end.

(** Lines 256-259. *)
Definition js_files_to_lint (all_files : list string) : list string :=
  filter (fun filename => Py.endswith filename ".js") all_files.
Definition py_files_to_lint (all_files : list string) : list string :=
  filter (fun filename => Py.endswith filename ".py") all_files.

(** Lines 261-270.  Python returns [None]; the embedding gives the local
    [summary_messages] back so that theorems can name it. *)
Definition lint_and_report (all_files : list string) : M (list string) :=
  let summary_messages := [] in
  print (String Py.LF "Starting jscs linter...") ;;
  js_summary <- _lint_js_files node_path jscs_path config_jscsrc
                  (js_files_to_lint all_files) ;;
  let summary_messages := (summary_messages ++ [js_summary])%list in
  print (String Py.LF "Starting pylint...") ;;
  py_summary <- _lint_py_files config_pylint
                  (py_files_to_lint all_files) ;;
  let summary_messages := (summary_messages ++ [py_summary])%list in
  print (Py.join (String Py.LF "") summary_messages) ;;
  print "" ;;
  ret summary_messages.

(** Lines 217-254: everything up to the assignment of [all_files]. *)
Definition candidate_set : M (list string) :=
  check_root_directory ;;
  input_path <- resolve_input_path ;;
  check_jscs_installed ;;
  collect_all_files input_path.

Definition _pre_commit_linter : M (list string) :=
  all_files <- candidate_set ;;
  lint_and_report all_files.

(** The script run as a program: the module level, then
    [if __name__ == '__main__': _pre_commit_linter()], no process spawned
    before. *)
Definition script : Run (list string) :=
  (module_level ;; _pre_commit_linter) 0.

End Script.

(** ** Reading a run *)

(** The argument vectors of the child processes that were spawned, and the
    argument lists of the calls of pylint, in order. *)
Fixpoint popen_calls (evs : list Event) : list (list string) :=
  match evs with
  | [] => []
  | Popen argv :: evs' => argv :: popen_calls evs'
  | _ :: evs' => popen_calls evs'
  end.

Fixpoint lint_run_calls (evs : list Event) : list (list string) :=
  match evs with
  | [] => []
  | LintRun args :: evs' => args :: lint_run_calls evs'
  | _ :: evs' => lint_run_calls evs'
  end.

(** A linter was invoked: jscs as a child process, or pylint. *)
Definition linter_calls (evs : list Event) : list (list string) :=
  (popen_calls evs ++ lint_run_calls evs)%list.

(** The status a summary message stands for: the empty message of a bucket
    with nothing to lint, a message that starts with FAILED, one that starts
    with SUCCESS. *)
Inductive Status : Type := NotApplicable | Success | Failure.

Definition summary_status (message : string) : option Status :=
  if message =? "" then Some NotApplicable
  else if Py.startswith message "FAILED" then Some Failure
  else if Py.startswith message "SUCCESS" then Some Success
  else None.



(** The outcome of linting one JavaScript file, from the two streams of its
    child process. *)
Inductive LintOutcome : Type :=
| Clean
| Violations (text : string)
| ToolError (text : string).

Definition lint_outcome (out : string * string) : LintOutcome :=
  if Py.truthy (snd out) then ToolError (snd out)
  else if Py.truthy (fst out) then Violations (fst out)
  else Clean.

Definition is_tool_error (o : LintOutcome) : bool :=
  match o with ToolError _ => true | _ => false end.

Definition is_violations (o : LintOutcome) : bool :=
  match o with Violations _ => true | _ => false end.

(** The position of the first ToolError among the outcomes of a bucket. *)
Fixpoint first_tool_error (outs : list LintOutcome) : option nat :=
  match outs with
  | [] => None
  | o :: outs' =>
      if is_tool_error o then Some 0
      else option_map S (first_tool_error outs')
  end.

Definition count_violations (outs : list LintOutcome) : nat :=
  List.length (filter is_violations outs).

(** The outcomes of the files of a JavaScript bucket, in order, when its
    first file is linted by child process number [n] and every file is
    linted: file [i] is linted by child process number [n + i]. *)
Fixpoint js_outcomes (env : Env) (jscs_cmd_args : list string) (n : nat)
    (files : list string) : list LintOutcome :=
  match files with
  | [] => []
  | filename :: rest =>
      lint_outcome (communicate env n (jscs_cmd_args ++ [filename])%list)
      :: js_outcomes env jscs_cmd_args (S n) rest
  end.

(** Order-preserving selection: [l1] is [l2] with some elements left out. *)
Inductive subsequence {A : Type} : list A -> list A -> Prop :=
| subseq_nil : subsequence [] []
| subseq_skip x l1 l2 : subsequence l1 l2 -> subsequence l1 (x :: l2)
| subseq_keep x l1 l2 : subsequence l1 l2 -> subsequence (x :: l1) (x :: l2).

(** The extensions the router knows. *)
Definition recognized (filename : string) : bool :=
  Py.endswith filename ".js" || Py.endswith filename ".py".

(** The summary message of a JavaScript bucket whose files were all linted
    with outcomes [outs]. *)
Definition js_summary (env : Env) (files : list string)
    (outs : list LintOutcome) : string :=
  match files with
  | [] => ""
  | _ =>
      if negb (count_violations outs =? 0)%nat then
        "FAILED    " ++ Py.str (count_violations outs) ++ " JavaScript files"
      else
        "SUCCESS   " ++ Py.str (List.length files)
        ++ " JavaScript files linted (" ++ js_secs env ++ " secs)"
  end.

(** The summary message of a non-empty Python bucket when [lint.Run] comes
    back: [failed] is the final [are_there_errors]. *)
Definition py_summary (env : Env) (files : list string) (failed : bool)
    : string :=
  if failed then "FAILED    Python linting failed"
  else
    "SUCCESS   " ++ Py.str (List.length files)
    ++ " Python files linted (" ++ py_secs env ++ " secs)".

Definition is_check_output (e : Event) : bool :=
  match e with CheckOutput _ => true | _ => false end.

Definition is_print (e : Event) : bool :=
  match e with Print _ => true | _ => false end.

(** Events that are no linter invocation. *)
Definition is_quiet (e : Event) : bool :=
  match e with Print _ | CheckOutput _ => true | _ => false end.

(** A computation all of whose events satisfy [P] and that spawns no child
    process through [Popen]. *)
Definition tame (P : Event -> bool) {A} (m : M A) : Prop :=
  forall n, forallb P (events (m n)) = true /\ procs (m n) = n.

(** The argument vector of the jscs child process for one file. *)
Definition jscs_argv (env : Env) (filename : string) : list string :=
  ([node_path env; jscs_path env; config_jscsrc env] ++ [filename])%list.

(** The outcomes of the JavaScript bucket of [all_files] when linting starts
    after [n] child processes. *)
Definition js_bucket_outcomes (env : Env) (all_files : list string) (n : nat)
    : list LintOutcome :=
  js_outcomes env [node_path env; jscs_path env; config_jscsrc env] n
    (js_files_to_lint all_files).

(** The final [are_there_errors] of a Python bucket whose [lint.Run] comes
    back. *)
Definition py_failed (o : LintRunOutcome) : bool :=
  match o with
  | RunSystemExit str_e => negb (str_e =? "0")
  | _ => false
  end.

(** The status of the summary a lint driver returned, if it returned. *)
Definition run_status (r : Run string) : option Status :=
  match result r with
  | Ret message => summary_status message
  | _ => None
  end.

(** ** Example environments *)

(** A checkout in /home/dev/oppia with the tools installed next to it,
    except for the paths listed in [missing].  [changed] and [staged] are
    what the two git commands print, [streams] is what the jscs child process
    writes for a file, [pylint] is how [lint.Run] ends. *)
Definition checkout (path : option string) (missing : list string)
    (changed staged : string) (streams : string -> string * string)
    (pylint : LintRunOutcome) : Env :=
  {| os_getcwd := "/home/dev/oppia";
     os_path_abspath :=
       fun p => if p =? "/home/dev/oppia/.." then "/home/dev" else p;
     os_path_relpath := fun p _ => p;
     os_path_exists := fun p => negb (existsb (String.eqb p) missing);
     os_path_isfile := fun p => Py.endswith p ".js" || Py.endswith p ".py";
     os_walk := fun _ => [];
     parsed_args_path := path;
     subprocess_check_output :=
       fun argv =>
         if existsb (String.eqb "--cached") argv then Some staged
         else Some changed;
     communicate := fun _ argv => streams (last argv "");
     lint_Run := fun _ => pylint;
     js_secs := "0.1";
     py_secs := "0.2" |}.

Definition lines (l : list string) : string :=
  concat "" (map (fun s => s ++ String Py.LF "") l).

(** jscs finds nothing in any file. *)
Definition all_clean (filename : string) : string * string := ("", "").

(** jscs reports a violation in a.js. *)
Definition a_violates (filename : string) : string * string :=
  if filename =? "a.js" then ("Missing semicolon at a.js", "") else ("", "").

(** jscs reports a violation in a.js and fails on b.js. *)
Definition a_violates_b_fails (filename : string) : string * string :=
  if filename =? "a.js" then ("Missing semicolon at a.js", "")
  else if filename =? "b.js" then ("", "Error: Cannot find module")
  else ("", "").

(** jscs fails on a.js. *)
Definition a_fails (filename : string) : string * string :=
  if filename =? "a.js" then ("", "Error: Cannot find module") else ("", "").

(** a.js is changed and jscs reports a violation in it. *)
Definition env_violation : Env :=
  checkout None [] (lines ["a.js"]) "" a_violates (RunSystemExit "0").

(** --path nope, and /home/dev/oppia/nope does not exist. *)
Definition env_not_found : Env :=
  checkout (Some "nope") ["/home/dev/oppia/nope"]
    (lines ["a.js"]) (lines ["c.py"]) all_clean (RunSystemExit "0").

(** a.js and c.py are changed and jscs fails on a.js. *)
Definition env_tool_error : Env :=
  checkout None [] (lines ["a.js"; "c.py"]) "" a_fails (RunSystemExit "0").

(** jscs is not installed; c.py is staged. *)
Definition env_no_jscs : Env :=
  checkout None ["/home/dev/node_modules/jscs/bin/jscs"]
    "" (lines ["c.py"]) all_clean (RunSystemExit "0").

(** a.js is changed and staged, b.js and notes.txt are changed, c.py is
    staged. *)
Definition env_both_lists : Env :=
  checkout None [] (lines ["a.js"; "notes.txt"; "b.js"])
    (lines ["c.py"; "a.js"]) a_violates (RunSystemExit "4").

(** a.js, b.js and c.js are changed; jscs reports a violation in a.js and
    fails on b.js. *)
Definition env_violation_then_error : Env :=
  checkout None [] (lines ["a.js"; "b.js"; "c.js"]) "" a_violates_b_fails
    (RunSystemExit "0").

(** --path core/a.js, an existing file. *)
Definition env_single_file : Env :=
  checkout (Some "core/a.js") [] (lines ["b.js"]) (lines ["c.py"])
    all_clean (RunSystemExit "0").

(** ** More ways to read a run and to set up an environment *)


(** The argument vectors of the [subprocess.check_output] calls, in order. *)
Fixpoint check_output_calls (evs : list Event) : list (list string) :=
  match evs with
  | [] => []
  | CheckOutput argv :: evs' => argv :: check_output_calls evs'
  | _ :: evs' => check_output_calls evs'
  end.

(** [env] with another value for [parsed_args.path]. *)
Definition with_path (env : Env) (path : option string) : Env :=
  {| os_getcwd := os_getcwd env;
     os_path_abspath := os_path_abspath env;
     os_path_relpath := os_path_relpath env;
     os_path_exists := os_path_exists env;
     os_path_isfile := os_path_isfile env;
     os_walk := os_walk env;
     parsed_args_path := path;
     subprocess_check_output := subprocess_check_output env;
     communicate := communicate env;
     lint_Run := lint_Run env;
     js_secs := js_secs env;
     py_secs := py_secs env |}.

(** A string without a line end. *)
Fixpoint one_line (s : string) : bool :=
  match s with
  | EmptyString => true
  | String c s' =>
      negb (Ascii.eqb c Py.LF) && negb (Ascii.eqb c Py.CR) && one_line s'
  end.

(** The two git commands of [_get_changed_filenames]. *)
Definition git_diff : list string := ["git"; "diff"; "--name-only"].
Definition git_diff_cached : list string :=
  ["git"; "diff"; "--cached"; "--name-only"; "--diff-filter=ACM"].

(** pylint is not installed. *)
Definition env_no_pylint : Env :=
  checkout None ["/home/dev/oppia_tools/pylint-1.5.2"]
    (lines ["a.js"]) (lines ["c.py"]) all_clean (RunSystemExit "0").

(** The checkout is not a git repository: both git commands fail. *)
Definition env_no_git : Env :=
  {| os_getcwd := "/home/dev/oppia";
     os_path_abspath :=
       fun p => if p =? "/home/dev/oppia/.." then "/home/dev" else p;
     os_path_relpath := fun p _ => p;
     os_path_exists := fun _ => true;
     os_path_isfile := fun _ => false;
     os_walk := fun _ => [];
     parsed_args_path := None;
     subprocess_check_output := fun _ => None;
     communicate := fun _ _ => ("", "");
     lint_Run := fun _ => RunSystemExit "0";
     js_secs := "0.1";
     py_secs := "0.2" |}.

(** --path core, a directory with a.py, b.js and c.txt, and d.js in its
    subdirectory sub; [os.path.relpath] is left to the identity. *)
Definition env_directory : Env :=
  {| os_getcwd := "/home/dev/oppia";
     os_path_abspath :=
       fun p => if p =? "/home/dev/oppia/.." then "/home/dev" else p;
     os_path_relpath := fun p _ => p;
     os_path_exists := fun _ => true;
     os_path_isfile := fun _ => false;
     os_walk :=
       fun top =>
         [(top, ["sub"], ["a.py"; "b.js"; "c.txt"]);
          (top ++ "/sub", [], ["d.js"])];
     parsed_args_path := Some "core";
     subprocess_check_output := fun _ => Some (lines ["z.js"]);
     communicate := fun _ argv => a_violates (last argv "");
     lint_Run := fun _ => RunSystemExit "0";
     js_secs := "0.1";
     py_secs := "0.2" |}.

(** c.py is changed and pylint raises an exception that is no SystemExit. *)
Definition env_pylint_raises : Env :=
  checkout None [] (lines ["a.js"; "c.py"]) "" all_clean
    (RunRaises "ImportError").

(** ** Lemmas on the monad *)

Lemma bind_Ret {A B} (m : M A) (k : A -> M B) n a :
  result (m n) = Ret a ->
  bind m k n =
  mkRun (events (m n) ++ events (k a (procs (m n))))%list
        (procs (k a (procs (m n)))) (result (k a (procs (m n)))).
Proof. intros H. unfold bind. rewrite H. reflexivity. Qed.

Lemma bind_Exit {A B} (m : M A) (k : A -> M B) n c :
  result (m n) = Exit c ->
  bind m k n = mkRun (events (m n)) (procs (m n)) (Exit c).
Proof. intros H. unfold bind. rewrite H. reflexivity. Qed.

Lemma bind_Raise {A B} (m : M A) (k : A -> M B) n e :
  result (m n) = Raise e ->
  bind m k n = mkRun (events (m n)) (procs (m n)) (Raise e).
Proof. intros H. unfold bind. rewrite H. reflexivity. Qed.

Lemma print_bind {B} text (k : M B) n :
  (print text ;; k) n
  = mkRun (Print text :: events (k n)) (procs (k n)) (result (k n)).
Proof. reflexivity. Qed.

Lemma popen_calls_app evs1 evs2 :
  popen_calls (evs1 ++ evs2) = (popen_calls evs1 ++ popen_calls evs2)%list.
Proof.
  induction evs1 as [|e evs1 IH]; simpl; [reflexivity|].
  destruct e; simpl; rewrite IH; reflexivity.
Qed.

Lemma lint_run_calls_app evs1 evs2 :
  lint_run_calls (evs1 ++ evs2)
  = (lint_run_calls evs1 ++ lint_run_calls evs2)%list.
Proof.
  induction evs1 as [|e evs1 IH]; simpl; [reflexivity|].
  destruct e; simpl; rewrite IH; reflexivity.
Qed.

Lemma is_tool_error_lint_outcome out :
  is_tool_error (lint_outcome out) = Py.truthy (snd out).
Proof.
  unfold lint_outcome.
  destruct (Py.truthy (snd out)); [reflexivity|].
  destruct (Py.truthy (fst out)); reflexivity.
Qed.

Lemma is_violations_lint_outcome out :
  is_violations (lint_outcome out)
  = negb (Py.truthy (snd out)) && Py.truthy (fst out).
Proof.
  unfold lint_outcome.
  destruct (Py.truthy (snd out)); [reflexivity|].
  destruct (Py.truthy (fst out)); reflexivity.
Qed.

(** ** The JavaScript loop *)

(** One turn of the loop, as a run. *)
Lemma lint_js_loop_cons env cmd total ind f rest acc n :
  lint_js_loop env cmd total ind (f :: rest) acc n =
  let line := "Linting file " ++ Py.str (ind + 1) ++ "/" ++ Py.str total
              ++ ": " ++ f ++ " ..." in
  let argv := (cmd ++ [f])%list in
  let out := communicate env n argv in
  if Py.truthy (snd out) then
    mkRun [Print line; Popen argv; Print "LINTER FAILED"; Print (snd out)]
          (S n) (Exit 1)
  else
    let r := lint_js_loop env cmd total (S ind) rest
               (if Py.truthy (fst out) then acc + 1 else acc) (S n) in
    mkRun (Print line :: Popen argv
           :: (if Py.truthy (fst out) then [Print (fst out)] else [])
           ++ events r)%list
          (procs r) (result r).
Proof.
  cbv zeta. cbn [lint_js_loop].
  unfold bind, print, Popen_communicate, sys_exit, ret.
  cbn [result events procs].
  destruct (Py.truthy (snd (communicate env n (cmd ++ [f])%list))).
  - reflexivity.
  - destruct (Py.truthy (fst (communicate env n (cmd ++ [f])%list)));
      reflexivity.
Qed.

(** What the loop does, read off the outcomes of the bucket: without a
    ToolError every file is linted and the files with Violations are
    counted; with a first ToolError at position [k] the files up to [k] are
    linted and the process exits with status 1.  pylint is never called. *)
Lemma lint_js_loop_run env cmd total files :
  forall ind acc n,
    let r := lint_js_loop env cmd total ind files acc n in
    let outs := js_outcomes env cmd n files in
    lint_run_calls (events r) = [] /\
    match first_tool_error outs with
    | None =>
        result r = Ret (acc + count_violations outs) /\
        popen_calls (events r) = map (fun f => cmd ++ [f])%list files /\
        procs r = n + List.length files
    | Some k =>
        result r = Exit 1 /\
        popen_calls (events r)
        = map (fun f => cmd ++ [f])%list (firstn (S k) files)
    end.
Proof.
  induction files as [|f rest IH]; intros ind acc n; cbv zeta.
  - simpl. repeat split; auto with arith.
  - rewrite lint_js_loop_cons. cbv zeta.
    cbn [js_outcomes first_tool_error].
    rewrite is_tool_error_lint_outcome.
    destruct (Py.truthy (snd (communicate env n (cmd ++ [f])%list))) eqn:Herr.
    + cbn. auto.
    + unfold count_violations. cbn [filter].
      rewrite is_violations_lint_outcome, Herr. cbn [negb andb].
      cbn [events procs result popen_calls lint_run_calls].
      rewrite lint_run_calls_app, popen_calls_app.
      destruct (Py.truthy (fst (communicate env n (cmd ++ [f])%list)));
        cbn [popen_calls lint_run_calls app List.length].
      * destruct (IH (S ind) (acc + 1) (S n)) as [IHl IHr].
        rewrite IHl. split; [reflexivity|].
        destruct (first_tool_error (js_outcomes env cmd (S n) rest))
          as [k|]; cbn [option_map].
        -- destruct IHr as [Hres Hcalls]. rewrite Hres, Hcalls. auto.
        -- destruct IHr as [Hres [Hcalls Hprocs]].
           rewrite Hres, Hcalls, Hprocs. unfold count_violations.
           repeat split; auto; f_equal; lia.
      * destruct (IH (S ind) acc (S n)) as [IHl IHr].
        rewrite IHl. split; [reflexivity|].
        destruct (first_tool_error (js_outcomes env cmd (S n) rest))
          as [k|]; cbn [option_map].
        -- destruct IHr as [Hres Hcalls]. rewrite Hres, Hcalls. auto.
        -- destruct IHr as [Hres [Hcalls Hprocs]].
           rewrite Hres, Hcalls, Hprocs. unfold count_violations.
           repeat split; auto; f_equal; lia.
Qed.

(** ** The two lint drivers as runs *)

Lemma _lint_js_files_run env node jscs cfg files n :
  let cmd := [node; jscs; cfg] in
  let r := _lint_js_files env node jscs cfg files n in
  let outs := js_outcomes env cmd n files in
  lint_run_calls (events r) = [] /\
  match first_tool_error outs with
  | None =>
      result r = Ret (js_summary env files outs) /\
      popen_calls (events r) = map (fun f => cmd ++ [f])%list files /\
      procs r = n + List.length files
  | Some k =>
      result r = Exit 1 /\
      popen_calls (events r)
      = map (fun f => cmd ++ [f])%list (firstn (S k) files)
  end.
Proof.
  cbv zeta. destruct files as [|f rest].
  - cbn. repeat split; auto with arith.
  - unfold _lint_js_files. rewrite print_bind.
    cbn [result events procs lint_run_calls popen_calls].
    pose proof (lint_js_loop_run env [node; jscs; cfg]
                  (List.length (f :: rest)) (f :: rest) 0 0 n) as H.
    cbv zeta in H. destruct H as [Hl Hr].
    destruct (first_tool_error (js_outcomes env [node; jscs; cfg] n (f :: rest)))
      as [k|].
    + destruct Hr as [Hres Hcalls].
      rewrite (bind_Exit _ _ _ _ Hres). cbn [events result procs]. auto.
    + destruct Hr as [Hres [Hcalls Hprocs]].
      rewrite (bind_Ret _ _ _ _ Hres). cbn [events result procs].
      rewrite print_bind. cbn [events result procs].
      rewrite Hprocs, lint_run_calls_app, popen_calls_app, Hl, Hcalls.
      set (c := count_violations _) in *. cbn [Nat.add] in *.
      unfold js_summary. fold c.
      destruct (negb (c =? 0)%nat);
        cbn [ret events procs result app lint_run_calls popen_calls];
        rewrite app_nil_r; auto.
Qed.

Lemma _lint_py_files_run env cfg files n :
  let r := _lint_py_files env cfg files n in
  popen_calls (events r) = [] /\ procs r = n /\
  match files with
  | [] => result r = Ret "" /\ lint_run_calls (events r) = []
  | _ =>
      lint_run_calls (events r) = [(files ++ [cfg])%list] /\
      match lint_Run env (files ++ [cfg])%list with
      | RunReturns => result r = Ret (py_summary env files false)
      | RunSystemExit str_e =>
          result r = Ret (py_summary env files (negb (str_e =? "0")))
      | RunRaises exn => result r = Raise exn
      end
  end.
Proof.
  cbv zeta. destruct files as [|f rest].
  - cbn. auto.
  - unfold _lint_py_files, try_lint_Run, bind, print, ret.
    cbn [result events procs].
    destruct (lint_Run env ((f :: rest) ++ [cfg])%list) as [|str_e|exn];
      cbn [result events procs app lint_run_calls popen_calls].
    + auto.
    + destruct (negb (str_e =? "0")); cbn; auto.
    + auto.
Qed.

(** ** Up to the candidate set *)

Lemma os_path_join_truthy a path :
  Py.truthy path = true -> Py.truthy (Py.os_path_join a [path]) = true.
Proof.
  unfold Py.os_path_join, Py.truthy. cbn [fold_left]. intros H.
  destruct path as [|c path]; [discriminate|].
  destruct (Py.startswith (String c path) "/"); [reflexivity|].
  destruct ((a =? "") || Py.endswith a "/").
  - destruct a; reflexivity.
  - destruct a; reflexivity.
Qed.

Lemma tame_ret P {A} (a : A) : tame P (ret a).
Proof. intros n. split; reflexivity. Qed.

Lemma tame_sys_exit P {A} c : tame P (@sys_exit A c).
Proof. intros n. split; reflexivity. Qed.

Lemma tame_print P text : P (Print text) = true -> tame P (print text).
Proof. intros H n. cbn. rewrite H. split; reflexivity. Qed.

Lemma tame_check_output P env argv :
  P (CheckOutput argv) = true -> tame P (check_output env argv).
Proof.
  intros H n. unfold check_output.
  destruct (subprocess_check_output env argv); cbn; rewrite H;
    split; reflexivity.
Qed.

Lemma tame_bind P {A B} (m : M A) (k : A -> M B) :
  tame P m -> (forall a, tame P (k a)) -> tame P (bind m k).
Proof.
  intros Hm Hk n. destruct (Hm n) as [Hev Hn]. unfold bind.
  destruct (result (m n)) as [a| |]; cbn [events procs]; auto.
  destruct (Hk a (procs (m n))) as [Hev' Hn'].
  rewrite forallb_app, Hev, Hev', Hn', Hn. split; reflexivity.
Qed.

Ltac tame_step :=
  first
    [ apply tame_ret
    | apply tame_sys_exit
    | apply tame_print; reflexivity
    | apply tame_check_output; reflexivity
    | apply tame_bind; [|intros ?]
    | match goal with
      | |- tame _ (if ?b then _ else _) => destruct b
      | |- tame _ (match ?x with Some _ => _ | None => _ end) => destruct x
      end ].

Lemma check_root_directory_tame env : tame is_print (check_root_directory env).
Proof. unfold check_root_directory. repeat tame_step. Qed.

Lemma check_jscs_installed_tame env :
  tame is_print (check_jscs_installed env).
Proof. unfold check_jscs_installed. repeat tame_step. Qed.

Lemma check_root_directory_ret env n :
  result (check_root_directory env n) = Ret tt.
Proof.
  unfold check_root_directory.
  destruct (negb (Py.endswith (os_getcwd env) "oppia")); reflexivity.
Qed.

Lemma check_jscs_installed_ret env n :
  result (check_jscs_installed env n) = Ret tt.
Proof.
  unfold check_jscs_installed.
  destruct (negb (os_path_exists env (jscs_path env))); reflexivity.
Qed.

Lemma tame_weaken (P Q : Event -> bool) {A} (m : M A) :
  (forall e, P e = true -> Q e = true) -> tame P m -> tame Q m.
Proof.
  intros HPQ Hm n. destruct (Hm n) as [Hev Hn]. split; [|exact Hn].
  rewrite forallb_forall in *. auto.
Qed.

Lemma is_print_quiet e : is_print e = true -> is_quiet e = true.
Proof. destruct e; auto. Qed.

Lemma quiet_events evs :
  forallb is_quiet evs = true ->
  popen_calls evs = [] /\ lint_run_calls evs = [].
Proof.
  induction evs as [|e evs IH]; cbn [forallb]; [auto|].
  destruct e; cbn; auto; discriminate.
Qed.

Lemma print_events evs :
  forallb is_print evs = true -> existsb is_check_output evs = false.
Proof.
  induction evs as [|e evs IH]; cbn [forallb existsb]; [auto|].
  destruct e; cbn; auto; discriminate.
Qed.

Lemma resolve_input_path_tame env : tame is_print (resolve_input_path env).
Proof. unfold resolve_input_path. repeat tame_step. Qed.

Lemma collect_all_files_tame env input_path :
  tame is_quiet (collect_all_files env input_path).
Proof.
  unfold collect_all_files, _get_changed_filenames. repeat tame_step.
Qed.

Lemma candidate_set_tame env : tame is_quiet (candidate_set env).
Proof.
  unfold candidate_set.
  apply tame_bind; [|intros _].
  { apply (tame_weaken is_print); [exact is_print_quiet|].
    apply check_root_directory_tame. }
  apply tame_bind; [|intros input_path].
  { apply (tame_weaken is_print); [exact is_print_quiet|].
    apply resolve_input_path_tame. }
  apply tame_bind; [|intros _].
  { apply (tame_weaken is_print); [exact is_print_quiet|].
    apply check_jscs_installed_tame. }
  apply collect_all_files_tame.
Qed.

(** No linter is invoked and no process is spawned through [Popen] before
    [all_files] is known. *)
Lemma candidate_set_quiet env n :
  let r := candidate_set env n in
  popen_calls (events r) = [] /\ lint_run_calls (events r) = [] /\
  procs r = n.
Proof.
  cbv zeta. destruct (candidate_set_tame env n) as [Hev Hn].
  destruct (quiet_events _ Hev) as [Hp Hl]. auto.
Qed.

Lemma resolve_input_path_not_found env n path :
  parsed_args_path env = Some path ->
  Py.truthy path = true ->
  os_path_exists env (Py.os_path_join (os_getcwd env) [path]) = false ->
  result (resolve_input_path env n) = Exit 0.
Proof.
  intros Harg Hpath Hex. unfold resolve_input_path.
  rewrite Harg, Hpath, Hex. reflexivity.
Qed.

Lemma resolve_input_path_found env n path :
  parsed_args_path env = Some path ->
  Py.truthy path = true ->
  os_path_exists env (Py.os_path_join (os_getcwd env) [path]) = true ->
  resolve_input_path env n
  = mkRun [] n (Ret (Some (Py.os_path_join (os_getcwd env) [path]))).
Proof.
  intros Harg Hpath Hex. unfold resolve_input_path.
  rewrite Harg, Hpath, Hex. reflexivity.
Qed.

Lemma resolve_input_path_absent env n :
  truthy_path (parsed_args_path env) = false ->
  resolve_input_path env n = mkRun [] n (Ret (parsed_args_path env)).
Proof.
  intros Harg. unfold resolve_input_path.
  destruct (parsed_args_path env) as [path|]; [|reflexivity].
  cbn [truthy_path] in Harg. rewrite Harg. reflexivity.
Qed.

Lemma collect_all_files_single env n path :
  Py.truthy path = true ->
  os_path_isfile env path = true ->
  collect_all_files env (Some path) n = mkRun [] n (Ret [path]).
Proof.
  intros Hpath Hfile. unfold collect_all_files.
  rewrite Hpath, Hfile. reflexivity.
Qed.

Lemma _get_changed_filenames_result env n unstaged staged :
  subprocess_check_output env ["git"; "diff"; "--name-only"]
  = Some unstaged ->
  subprocess_check_output env
    ["git"; "diff"; "--cached"; "--name-only"; "--diff-filter=ACM"]
  = Some staged ->
  result (_get_changed_filenames env n)
  = Ret (Py.splitlines unstaged ++ Py.splitlines staged)%list.
Proof.
  intros Hu Hs. unfold _get_changed_filenames, bind, check_output.
  rewrite Hu. cbn [result events procs]. rewrite Hs. reflexivity.
Qed.

Lemma collect_all_files_changed env n input_path unstaged staged :
  truthy_path input_path = false ->
  subprocess_check_output env ["git"; "diff"; "--name-only"]
  = Some unstaged ->
  subprocess_check_output env
    ["git"; "diff"; "--cached"; "--name-only"; "--diff-filter=ACM"]
  = Some staged ->
  result (collect_all_files env input_path n)
  = Ret (Py.splitlines unstaged ++ Py.splitlines staged)%list.
Proof.
  intros Harg Hu Hs. unfold collect_all_files.
  destruct input_path as [path|]; cbn [truthy_path] in Harg;
    try rewrite Harg; apply _get_changed_filenames_result; assumption.
Qed.

(** The result of [candidate_set] is the one of its two steps that can stop
    the run or fail. *)
Lemma candidate_set_result env n :
  result (candidate_set env n)
  = match result (resolve_input_path env n) with
    | Ret input_path => result (collect_all_files env input_path n)
    | Exit c => Exit c
    | Raise exn => Raise exn
    end.
Proof.
  unfold candidate_set.
  rewrite (bind_Ret _ _ _ _ (check_root_directory_ret env n)).
  cbn [result].
  destruct (check_root_directory_tame env n) as [_ ->].
  destruct (resolve_input_path_tame env n) as [_ Hn].
  destruct (result (resolve_input_path env n)) as [input_path|c|exn] eqn:Hr.
  - rewrite (bind_Ret _ _ _ _ Hr). cbn [result]. rewrite Hn.
    rewrite (bind_Ret _ _ _ _ (check_jscs_installed_ret env n)).
    cbn [result].
    destruct (check_jscs_installed_tame env n) as [_ ->]. reflexivity.
  - rewrite (bind_Exit _ _ _ _ Hr). reflexivity.
  - rewrite (bind_Raise _ _ _ _ Hr). reflexivity.
Qed.

Lemma candidate_set_not_found env n path :
  parsed_args_path env = Some path ->
  Py.truthy path = true ->
  os_path_exists env (Py.os_path_join (os_getcwd env) [path]) = false ->
  result (candidate_set env n) = @Exit (list string) 0.
Proof.
  intros Harg Hpath Hex. rewrite candidate_set_result.
  rewrite (resolve_input_path_not_found env n path Harg Hpath Hex).
  reflexivity.
Qed.

Lemma candidate_set_changed env n unstaged staged :
  truthy_path (parsed_args_path env) = false ->
  subprocess_check_output env ["git"; "diff"; "--name-only"]
  = Some unstaged ->
  subprocess_check_output env
    ["git"; "diff"; "--cached"; "--name-only"; "--diff-filter=ACM"]
  = Some staged ->
  result (candidate_set env n)
  = Ret (Py.splitlines unstaged ++ Py.splitlines staged)%list.
Proof.
  intros Harg Hu Hs. rewrite candidate_set_result.
  rewrite (resolve_input_path_absent env n Harg). cbn [result].
  apply collect_all_files_changed; assumption.
Qed.

Lemma candidate_set_single_file env n path :
  parsed_args_path env = Some path ->
  Py.truthy path = true ->
  os_path_exists env (Py.os_path_join (os_getcwd env) [path]) = true ->
  os_path_isfile env (Py.os_path_join (os_getcwd env) [path]) = true ->
  result (candidate_set env n)
  = Ret [Py.os_path_join (os_getcwd env) [path]] /\
  existsb is_check_output (events (candidate_set env n)) = false.
Proof.
  intros Harg Hpath Hex Hfile.
  pose proof (resolve_input_path_found env n path Harg Hpath Hex) as Hres.
  pose proof (collect_all_files_single env n _
                (os_path_join_truthy (os_getcwd env) path Hpath) Hfile)
    as Hcol.
  split.
  - rewrite candidate_set_result, Hres. cbn [result]. rewrite Hcol.
    reflexivity.
  - unfold candidate_set.
    rewrite (bind_Ret _ _ _ _ (check_root_directory_ret env n)).
    cbn [events].
    destruct (check_root_directory_tame env n) as [Hroot ->].
    rewrite (bind_Ret _ _ n (Some (Py.os_path_join (os_getcwd env) [path])))
      by (rewrite Hres; reflexivity).
    rewrite Hres. cbn [events procs app].
    rewrite (bind_Ret _ _ _ _ (check_jscs_installed_ret env n)).
    cbn [events].
    destruct (check_jscs_installed_tame env n) as [Hjscs ->].
    rewrite Hcol. cbn [events]. rewrite app_nil_r, existsb_app.
    rewrite (print_events _ Hroot), (print_events _ Hjscs). reflexivity.
Qed.

(** ** Linting and the report *)

Lemma lint_and_report_run env all_files n :
  let js := js_files_to_lint all_files in
  let py := py_files_to_lint all_files in
  let outs := js_bucket_outcomes env all_files n in
  let r := lint_and_report env all_files n in
  match first_tool_error outs with
  | Some k =>
      result r = Exit 1 /\
      popen_calls (events r) = map (jscs_argv env) (firstn (S k) js) /\
      lint_run_calls (events r) = []
  | None =>
      popen_calls (events r) = map (jscs_argv env) js /\
      match py with
      | [] =>
          result r = Ret [js_summary env js outs; ""] /\
          lint_run_calls (events r) = []
      | _ =>
          lint_run_calls (events r) = [(py ++ [config_pylint env])%list] /\
          match lint_Run env (py ++ [config_pylint env])%list with
          | RunRaises exn => result r = Raise exn
          | o =>
              result r
              = Ret [js_summary env js outs; py_summary env py (py_failed o)]
          end
      end
  end.
Proof.
  cbv zeta. unfold lint_and_report, js_bucket_outcomes.
  rewrite print_bind. cbn [events procs result popen_calls lint_run_calls].
  pose proof (_lint_js_files_run env (node_path env) (jscs_path env)
                (config_jscsrc env) (js_files_to_lint all_files) n) as Hjs.
  cbv zeta in Hjs. destruct Hjs as [Hjl Hjr].
  destruct (first_tool_error _) as [k|].
  - destruct Hjr as [Hres Hcalls].
    rewrite (bind_Exit _ _ _ _ Hres). cbn [events procs result]. auto.
  - destruct Hjr as [Hres [Hcalls Hprocs]].
    rewrite (bind_Ret _ _ _ _ Hres). cbn [events procs result].
    rewrite print_bind. cbn [events procs result].
    set (m := procs _).
    pose proof (_lint_py_files_run env (config_pylint env)
                  (py_files_to_lint all_files) m) as Hpy.
    cbv zeta in Hpy. destruct Hpy as [Hpp [Hpn Hpr]].
    rewrite popen_calls_app, lint_run_calls_app, Hjl, Hcalls.
    cbn [app popen_calls lint_run_calls].
    destruct (py_files_to_lint all_files) as [|p py] eqn:Hpy.
    + destruct Hpr as [Hpres Hpl].
      rewrite (bind_Ret _ _ _ _ Hpres). cbn [events procs result].
      rewrite !print_bind. cbn [events procs result ret].
      rewrite popen_calls_app, lint_run_calls_app, Hpp, Hpl.
      cbn. rewrite app_nil_r. auto.
    + destruct Hpr as [Hpl Hpres].
      destruct (lint_Run env ((p :: py) ++ [config_pylint env])%list)
        as [|str_e|exn].
      * rewrite (bind_Ret _ _ _ _ Hpres). cbn [events procs result].
        rewrite !print_bind. cbn [events procs result ret].
        rewrite popen_calls_app, lint_run_calls_app, Hpp, Hpl.
        cbn. rewrite app_nil_r. auto.
      * rewrite (bind_Ret _ _ _ _ Hpres). cbn [events procs result].
        rewrite !print_bind. cbn [events procs result ret].
        rewrite popen_calls_app, lint_run_calls_app, Hpp, Hpl.
        cbn. rewrite app_nil_r. auto.
      * rewrite (bind_Raise _ _ _ _ Hpres). cbn [events procs result].
        rewrite Hpp, Hpl. rewrite app_nil_r. auto.
Qed.

(** ** The whole script *)

Lemma script_pylint_missing env :
  os_path_exists env (_PYLINT_PATH env) = false ->
  result (script env) = Exit 1 /\
  popen_calls (events (script env)) = [] /\
  lint_run_calls (events (script env)) = [].
Proof.
  intros H. unfold script, module_level. rewrite H. cbn. auto.
Qed.

Lemma script_pylint_installed env :
  os_path_exists env (_PYLINT_PATH env) = true ->
  script env = _pre_commit_linter env 0.
Proof.
  intros H. unfold script, module_level. rewrite H.
  cbn [negb]. unfold bind at 1. cbn [ret result events procs app].
  destruct (_pre_commit_linter env 0). reflexivity.
Qed.

(** The script from the candidate set on. *)
Lemma script_from_candidates env all_files :
  os_path_exists env (_PYLINT_PATH env) = true ->
  result (candidate_set env 0) = Ret all_files ->
  let r := lint_and_report env all_files 0 in
  result (script env) = result r /\
  popen_calls (events (script env)) = popen_calls (events r) /\
  lint_run_calls (events (script env)) = lint_run_calls (events r).
Proof.
  intros Hpy Hcs. cbv zeta.
  rewrite (script_pylint_installed env Hpy). unfold _pre_commit_linter.
  rewrite (bind_Ret _ _ _ _ Hcs). cbn [events procs result].
  destruct (candidate_set_quiet env 0) as [Hp [Hl Hn]].
  rewrite Hn, popen_calls_app, lint_run_calls_app, Hp, Hl. auto.
Qed.

(** The script stopped before the candidate set is known. *)
Lemma script_stopped_early env c :
  os_path_exists env (_PYLINT_PATH env) = true ->
  result (candidate_set env 0) = Exit c ->
  result (script env) = Exit c /\
  popen_calls (events (script env)) = [] /\
  lint_run_calls (events (script env)) = [].
Proof.
  intros Hpy Hcs.
  rewrite (script_pylint_installed env Hpy). unfold _pre_commit_linter.
  rewrite (bind_Exit _ _ _ _ Hcs). cbn [events procs result].
  destruct (candidate_set_quiet env 0) as [Hp [Hl Hn]]. auto.
Qed.

(** ** Outcomes of a bucket *)

Lemma nth_error_js_outcomes env cmd files :
  forall n i,
    nth_error (js_outcomes env cmd n files) i
    = option_map
        (fun f => lint_outcome (communicate env (n + i) (cmd ++ [f])%list))
        (nth_error files i).
Proof.
  induction files as [|f rest IH]; intros n i.
  - destruct i; reflexivity.
  - destruct i as [|i]; cbn [js_outcomes nth_error option_map].
    + rewrite Nat.add_0_r. reflexivity.
    + rewrite IH. replace (S n + i) with (n + S i) by lia. reflexivity.
Qed.

Lemma first_tool_error_le outs :
  forall i o,
    nth_error outs i = Some o -> is_tool_error o = true ->
    exists k, first_tool_error outs = Some k /\ k <= i.
Proof.
  induction outs as [|o' outs IH]; intros i o Hnth Herr.
  - destruct i; discriminate.
  - cbn [first_tool_error].
    destruct (is_tool_error o') eqn:Ho'.
    + exists 0. split; [reflexivity | lia].
    + destruct i as [|i]; cbn [nth_error] in Hnth.
      * injection Hnth as ->. congruence.
      * destruct (IH i o Hnth Herr) as [k [Hk Hle]].
        exists (S k). rewrite Hk. split; [reflexivity | lia].
Qed.

Lemma first_tool_error_None outs :
  Forall (fun o => is_tool_error o = false) outs ->
  first_tool_error outs = None.
Proof.
  induction 1 as [|o outs Ho _ IH]; cbn [first_tool_error].
  - reflexivity.
  - rewrite Ho, IH. reflexivity.
Qed.

Lemma first_tool_error_None_inv outs :
  first_tool_error outs = None ->
  Forall (fun o => is_tool_error o = false) outs.
Proof.
  induction outs as [|o outs IH]; cbn [first_tool_error]; intros H.
  - constructor.
  - destruct (is_tool_error o) eqn:Ho; [discriminate|].
    constructor; [assumption|]. apply IH.
    destruct (first_tool_error outs); [discriminate | reflexivity].
Qed.

Lemma count_violations_clean outs :
  Forall (fun o => o = Clean) outs -> count_violations outs = 0.
Proof.
  unfold count_violations.
  induction 1 as [|o outs Ho _ IH]; cbn [filter]; [reflexivity|].
  subst o. exact IH.
Qed.

Lemma count_violations_some outs :
  Exists (fun o => is_violations o = true) outs <->
  count_violations outs <> 0.
Proof.
  unfold count_violations. split.
  - induction 1 as [o outs Ho | o outs _ IH]; cbn [filter].
    + rewrite Ho. discriminate.
    + destruct (is_violations o); [discriminate | exact IH].
  - induction outs as [|o outs IH]; cbn [filter]; intros H.
    + contradiction.
    + destruct (is_violations o) eqn:Ho.
      * now apply Exists_cons_hd.
      * apply Exists_cons_tl, IH, H.
Qed.

Lemma clean_not_tool_error outs :
  Forall (fun o => o = Clean) outs ->
  Forall (fun o => is_tool_error o = false) outs.
Proof.
  apply Forall_impl. intros o ->. reflexivity.
Qed.

(** ** Status of the summary messages *)

Lemma summary_status_js env files outs :
  summary_status (js_summary env files outs)
  = Some match files with
         | [] => NotApplicable
         | _ => if (count_violations outs =? 0)%nat then Success else Failure
         end.
Proof.
  unfold js_summary. destruct files as [|f rest]; [reflexivity|].
  destruct (count_violations outs =? 0)%nat; reflexivity.
Qed.

Lemma summary_status_py env files failed :
  summary_status (py_summary env files failed)
  = Some (if failed then Failure else Success).
Proof. destruct failed; reflexivity. Qed.



(** ** The router *)

Lemma subsequence_filter {A} (p : A -> bool) l :
  subsequence (filter p l) l.
Proof.
  induction l as [|x l IH]; cbn [filter].
  - constructor.
  - destruct (p x); constructor; exact IH.
Qed.

Lemma filter_filter_implied {A} (p q : A -> bool) l :
  (forall x, p x = true -> q x = true) ->
  filter p (filter q l) = filter p l.
Proof.
  intros Hpq. induction l as [|x l IH]; cbn [filter]; [reflexivity|].
  destruct (q x) eqn:Hq; cbn [filter].
  - rewrite IH. reflexivity.
  - destruct (p x) eqn:Hp; [|exact IH].
    rewrite (Hpq x Hp) in Hq. discriminate.
Qed.

(** ** The lint drivers: claims C5, C6 and C10 *)

(** C6.  In a JavaScript bucket whose file at position [i] (counted from 0:
    file k = i + 1 of the bucket) has a linter invocation that writes to its
    error stream, the linter is invoked on an initial part of the bucket of
    at most [i + 1] files: it is never invoked on the files after position
    [i]. *)
Theorem tool_error_stops_js_bucket env node jscs cfg files n i f :
  nth_error files i = Some f ->
  Py.truthy (snd (communicate env (n + i) [node; jscs; cfg; f])) = true ->
  exists m,
    m <= S i /\
    popen_calls (events (_lint_js_files env node jscs cfg files n))
    = map (fun f => [node; jscs; cfg; f]) (firstn m files).
Proof.
  intros Hnth Herr.
  destruct (_lint_js_files_run env node jscs cfg files n) as [_ Hrun].
  assert (Hout : nth_error (js_outcomes env [node; jscs; cfg] n files) i
                 = Some (lint_outcome
                           (communicate env (n + i) [node; jscs; cfg; f]))).
  { rewrite nth_error_js_outcomes, Hnth. reflexivity. }
  destruct (first_tool_error_le _ _ _ Hout) as [k [Hk Hle]].
  { rewrite is_tool_error_lint_outcome. exact Herr. }
  rewrite Hk in Hrun. destruct Hrun as [_ Hcalls].
  exists (S k). split; [lia | exact Hcalls].
Qed.

Lemma tool_error_stops_js_bucket_witness :
  exists m,
    m <= 2 /\
    popen_calls
      (events (_lint_js_files env_violation_then_error "node" "jscs"
                 "--config=.jscsrc" ["a.js"; "b.js"; "c.js"] 0))
    = map (fun f => ["node"; "jscs"; "--config=.jscsrc"; f])
        (firstn m ["a.js"; "b.js"; "c.js"]).
Proof.
  apply (tool_error_stops_js_bucket env_violation_then_error
           "node" "jscs" "--config=.jscsrc" ["a.js"; "b.js"; "c.js"] 0 1
           "b.js").
  - reflexivity.
  - reflexivity.
Defined.

(** C5, as stated, fails on the code: in this bucket a.js yields Violations
    and b.js a ToolError; the process exits with status 1 inside the loop and
    no summary is returned, so the summary is not a Failure. *)
Lemma violations_then_tool_error_no_summary :
  js_outcomes env_violation_then_error
    ["node"; "jscs"; "--config=.jscsrc"] 0 ["a.js"; "b.js"; "c.js"]
  = [Violations "Missing semicolon at a.js";
     ToolError "Error: Cannot find module"; Clean] /\
  result (_lint_js_files env_violation_then_error "node" "jscs"
            "--config=.jscsrc" ["a.js"; "b.js"; "c.js"] 0) = Exit 1 /\
  run_status (_lint_js_files env_violation_then_error "node" "jscs"
                "--config=.jscsrc" ["a.js"; "b.js"; "c.js"] 0)
  <> Some Failure.
Proof.
  split; [vm_compute; reflexivity|]. split; [vm_compute; reflexivity|].
  intros H. vm_compute in H. discriminate H.
Qed.

(** C5, amended.  An empty bucket gives the empty summary (NotApplicable);
    a non-empty JavaScript bucket all of whose files yield Clean gives a
    Success summary; a JavaScript bucket with a file that yields Violations
    gives a Failure summary provided no file of the bucket yields a
    ToolError.  The Python bucket is linted as one batch: when pylint ends
    with exit value '0' the summary is a Success, with any other exit value
    a Failure. *)
Theorem bucket_run_summary env node jscs cfg rcfile js py n :
  let outs := js_outcomes env [node; jscs; cfg] n js in
  let js_run := _lint_js_files env node jscs cfg js n in
  let py_run := _lint_py_files env rcfile py n in
  (js = [] -> run_status js_run = Some NotApplicable) /\
  (js <> [] -> Forall (fun o => o = Clean) outs ->
   run_status js_run = Some Success) /\
  (Forall (fun o => is_tool_error o = false) outs ->
   Exists (fun o => is_violations o = true) outs ->
   run_status js_run = Some Failure) /\
  (py = [] -> run_status py_run = Some NotApplicable) /\
  (py <> [] -> forall str_e,
     lint_Run env (py ++ [rcfile])%list = RunSystemExit str_e ->
     run_status py_run = Some (if str_e =? "0" then Success else Failure)).
Proof.
  cbv zeta.
  destruct (_lint_js_files_run env node jscs cfg js n) as [_ Hjs].
  destruct (_lint_py_files_run env rcfile py n) as [_ [_ Hpy]].
  unfold run_status. repeat split.
  - intros ->. reflexivity.
  - intros Hne Hclean.
    rewrite (first_tool_error_None _ (clean_not_tool_error _ Hclean)) in Hjs.
    destruct Hjs as [-> _]. rewrite summary_status_js.
    rewrite (count_violations_clean _ Hclean).
    destruct js; [contradiction | reflexivity].
  - intros Hok Hviol. rewrite (first_tool_error_None _ Hok) in Hjs.
    destruct Hjs as [-> _]. rewrite summary_status_js.
    apply count_violations_some in Hviol.
    destruct js as [|f rest]; [cbn in Hviol; contradiction|].
    destruct (Nat.eqb_spec
                (count_violations
                   (js_outcomes env [node; jscs; cfg] n (f :: rest))) 0);
      [contradiction | reflexivity].
  - intros ->. reflexivity.
  - intros Hne str_e Hrun. destruct py as [|f rest]; [contradiction|].
    destruct Hpy as [_ Hres]. rewrite Hrun in Hres. rewrite Hres.
    rewrite summary_status_py. destruct (str_e =? "0"); reflexivity.
Qed.

Lemma bucket_run_summary_witness :
  run_status (_lint_js_files env_violation "node" "jscs" "--config=.jscsrc"
                ["b.js"; "a.js"] 0) = Some Failure.
Proof.
  destruct (bucket_run_summary env_violation "node" "jscs"
              "--config=.jscsrc" "--rcfile=.pylintrc" ["b.js"; "a.js"] [] 0)
    as (_ & _ & H & _).
  apply H.
  - repeat constructor.
  - apply Exists_cons_tl, Exists_cons_hd. reflexivity.
Defined.

(** C10.  The Python bucket is linted by one call of pylint on all of its
    files together (no call for an empty bucket), never by a child process
    per file, so the error-stream rule of the JavaScript loop has nothing to
    apply to; the summary depends on the exit value of that call alone:
    '0' gives a Success and every other exit value gives the same Failure
    message, whatever made pylint end that way. *)
Theorem python_bucket_single_batch env rcfile files n :
  let r := _lint_py_files env rcfile files n in
  popen_calls (events r) = [] /\
  lint_run_calls (events r)
  = match files with
    | [] => []
    | _ => [(files ++ [rcfile])%list]
    end /\
  (forall str_e,
     files <> [] ->
     lint_Run env (files ++ [rcfile])%list = RunSystemExit str_e ->
     result r
     = Ret (if str_e =? "0"
            then "SUCCESS   " ++ Py.str (List.length files)
                 ++ " Python files linted (" ++ py_secs env ++ " secs)"
            else "FAILED    Python linting failed") /\
     run_status r = Some (if str_e =? "0" then Success else Failure)).
Proof.
  cbv zeta.
  destruct (_lint_py_files_run env rcfile files n) as [Hp [_ Hrun]].
  split; [exact Hp|]. split.
  - destruct files as [|f rest]; [apply Hrun|]. apply Hrun.
  - intros str_e Hne Hexit. destruct files as [|f rest]; [contradiction|].
    destruct Hrun as [_ Hres]. rewrite Hexit in Hres.
    unfold run_status. rewrite Hres. unfold py_summary.
    destruct (str_e =? "0"); split; reflexivity.
Qed.

Lemma python_bucket_single_batch_witness :
  result (_lint_py_files env_both_lists "--rcfile=.pylintrc" ["c.py"] 0)
  = Ret "FAILED    Python linting failed" /\
  run_status (_lint_py_files env_both_lists "--rcfile=.pylintrc" ["c.py"] 0)
  = Some Failure.
Proof.
  destruct (python_bucket_single_batch env_both_lists "--rcfile=.pylintrc"
              ["c.py"] 0) as (_ & _ & H).
  apply (H "4").
  - discriminate.
  - reflexivity.
Defined.

(** ** The router and the candidate set: claims C7, C8 and C9 *)

Lemma js_recognized filename :
  Py.endswith filename ".js" = true -> recognized filename = true.
Proof. unfold recognized. intros ->. reflexivity. Qed.

Lemma py_recognized filename :
  Py.endswith filename ".py" = true -> recognized filename = true.
Proof. unfold recognized. intros ->. apply orb_true_r. Qed.

(** C9.  A file of the candidate set whose name ends neither in '.js' nor in
    '.py' is in neither bucket; each bucket is the candidate set with some
    files left out, in the same order; and the run of the linters and their
    report are the same as for the candidate set without the unrecognized
    files, so these files contribute to no Failure. *)
Theorem unrecognized_files_dropped env all_files n :
  (forall filename,
     recognized filename = false ->
     ~ In filename (js_files_to_lint all_files) /\
     ~ In filename (py_files_to_lint all_files)) /\
  subsequence (js_files_to_lint all_files) all_files /\
  subsequence (py_files_to_lint all_files) all_files /\
  lint_and_report env all_files n
  = lint_and_report env (filter recognized all_files) n.
Proof.
  repeat split.
  - unfold js_files_to_lint. intros Hin. apply filter_In in Hin.
    destruct Hin as [_ Hjs]. apply js_recognized in Hjs. congruence.
  - unfold py_files_to_lint. intros Hin. apply filter_In in Hin.
    destruct Hin as [_ Hpy]. apply py_recognized in Hpy. congruence.
  - apply subsequence_filter.
  - apply subsequence_filter.
  - unfold lint_and_report, js_files_to_lint, py_files_to_lint.
    rewrite (filter_filter_implied _ recognized all_files js_recognized).
    rewrite (filter_filter_implied _ recognized all_files py_recognized).
    reflexivity.
Qed.

Lemma unrecognized_files_dropped_witness :
  ~ In "notes.txt" (js_files_to_lint ["a.js"; "notes.txt"; "c.py"]) /\
  ~ In "notes.txt" (py_files_to_lint ["a.js"; "notes.txt"; "c.py"]).
Proof.
  destruct (unrecognized_files_dropped env_both_lists
              ["a.js"; "notes.txt"; "c.py"] 0) as (H & _).
  apply H. reflexivity.
Defined.

(** C7.  Without an explicit path the candidate set is the lines of
    [git diff --name-only] followed by the lines of
    [git diff --cached --name-only --diff-filter=ACM], nothing removed: a
    file is in the candidate set as many times as in the two lists
    together. *)
Theorem changed_files_candidate_set env n unstaged staged :
  truthy_path (parsed_args_path env) = false ->
  subprocess_check_output env ["git"; "diff"; "--name-only"]
  = Some unstaged ->
  subprocess_check_output env
    ["git"; "diff"; "--cached"; "--name-only"; "--diff-filter=ACM"]
  = Some staged ->
  exists all_files,
    result (candidate_set env n) = Ret all_files /\
    all_files = (Py.splitlines unstaged ++ Py.splitlines staged)%list /\
    forall filename,
      count_occ string_dec all_files filename
      = count_occ string_dec (Py.splitlines unstaged) filename
        + count_occ string_dec (Py.splitlines staged) filename.
Proof.
  intros Harg Hu Hs. eexists. split; [|split; [reflexivity|]].
  - apply candidate_set_changed; assumption.
  - intros filename. apply count_occ_app.
Qed.

Lemma changed_files_candidate_set_witness :
  exists all_files,
    result (candidate_set env_both_lists 0) = Ret all_files /\
    all_files = ["a.js"; "notes.txt"; "b.js"; "c.py"; "a.js"] /\
    forall filename,
      count_occ string_dec all_files filename
      = count_occ string_dec ["a.js"; "notes.txt"; "b.js"] filename
        + count_occ string_dec ["c.py"; "a.js"] filename.
Proof.
  apply (changed_files_candidate_set env_both_lists 0
           (lines ["a.js"; "notes.txt"; "b.js"]) (lines ["c.py"; "a.js"]));
    reflexivity.
Defined.

(** C8.  With an explicit path that is an existing file the candidate set
    has one element, the path resolved against the working directory, and
    git is not asked for anything. *)
Theorem explicit_file_candidate_set env n path :
  parsed_args_path env = Some path ->
  Py.truthy path = true ->
  os_path_exists env (Py.os_path_join (os_getcwd env) [path]) = true ->
  os_path_isfile env (Py.os_path_join (os_getcwd env) [path]) = true ->
  result (candidate_set env n)
  = Ret [Py.os_path_join (os_getcwd env) [path]] /\
  existsb is_check_output (events (candidate_set env n)) = false.
Proof. apply candidate_set_single_file. Qed.

Lemma explicit_file_candidate_set_witness :
  result (candidate_set env_single_file 0)
  = Ret ["/home/dev/oppia/core/a.js"] /\
  existsb is_check_output (events (candidate_set env_single_file 0)) = false.
Proof.
  apply (explicit_file_candidate_set env_single_file 0 "core/a.js");
    reflexivity.
Defined.

(** ** The whole run: claims C1, C2, C3 and C4 *)

Lemma script_raised_early env exn :
  os_path_exists env (_PYLINT_PATH env) = true ->
  result (candidate_set env 0) = Raise exn ->
  result (script env) = Raise exn.
Proof.
  intros Hpy Hcs.
  rewrite (script_pylint_installed env Hpy). unfold _pre_commit_linter.
  rewrite (bind_Raise _ _ _ _ Hcs). reflexivity.
Qed.






(** C3, as stated, fails on the code: jscs writes to its error stream for
    a.js; the Python bucket is [c.py] and pylint is never called. *)
Lemma tool_error_skips_python_bucket :
  result (candidate_set env_tool_error 0) = Ret ["a.js"; "c.py"] /\
  js_bucket_outcomes env_tool_error ["a.js"; "c.py"] 0
  = [ToolError "Error: Cannot find module"] /\
  py_files_to_lint ["a.js"; "c.py"] = ["c.py"] /\
  lint_run_calls (events (script env_tool_error)) = [] /\
  result (script env_tool_error) = Exit 1.
Proof. repeat split; vm_compute; reflexivity. Qed.

(** C3, amended.  When the first ToolError of the JavaScript bucket is at
    position [k], the files of the bucket up to that position are the only
    ones linted and the whole process exits with status 1 there: the files
    after it are not linted, and neither is the Python bucket, whose turn
    comes after the JavaScript bucket. *)
Theorem js_tool_error_ends_run env all_files k :
  os_path_exists env (_PYLINT_PATH env) = true ->
  result (candidate_set env 0) = Ret all_files ->
  first_tool_error (js_bucket_outcomes env all_files 0) = Some k ->
  result (script env) = Exit 1 /\
  exit_status (result (script env)) = 1%Z /\
  popen_calls (events (script env))
  = map (jscs_argv env) (firstn (S k) (js_files_to_lint all_files)) /\
  lint_run_calls (events (script env)) = [].
Proof.
  intros Hpy Hcs Herr.
  destruct (script_from_candidates env all_files Hpy Hcs)
    as [Hres [Hpopen Hlint]].
  pose proof (lint_and_report_run env all_files 0) as Hrun. cbv zeta in Hrun.
  rewrite Herr in Hrun. destruct Hrun as [Hexit [Hcalls Hnone]].
  rewrite Hres, Hpopen, Hlint, Hexit. auto.
Qed.

Lemma js_tool_error_ends_run_witness :
  result (script env_tool_error) = Exit 1 /\
  exit_status (result (script env_tool_error)) = 1%Z /\
  popen_calls (events (script env_tool_error))
  = map (jscs_argv env_tool_error)
      (firstn 1 (js_files_to_lint ["a.js"; "c.py"])) /\
  lint_run_calls (events (script env_tool_error)) = [].
Proof.
  apply (js_tool_error_ends_run env_tool_error ["a.js"; "c.py"] 0);
    vm_compute; reflexivity.
Defined.

(** C2: the code at a path that does not exist.  The run stops before any
    linter is invoked, as the claim says, but with [sys.exit(0)]: the exit
    status is 0. *)
Theorem not_found_exits_zero :
  parsed_args_path env_not_found = Some "nope" /\
  os_path_exists env_not_found
    (Py.os_path_join (os_getcwd env_not_found) ["nope"]) = false /\
  linter_calls (events (script env_not_found)) = [] /\
  result (script env_not_found) = Exit 0 /\
  exit_status (result (script env_not_found)) = 0%Z.
Proof. repeat split; vm_compute; reflexivity. Qed.

(** C4: the code when the jscs binary is missing.  The script prints its
    ERROR lines and goes on: pylint is run on the Python bucket and the
    process ends with exit status 0. *)
Theorem missing_jscs_still_lints :
  os_path_exists env_no_jscs (jscs_path env_no_jscs) = false /\
  os_path_exists env_no_jscs (_PYLINT_PATH env_no_jscs) = true /\
  lint_run_calls (events (script env_no_jscs))
  = [["c.py"; "--rcfile=/home/dev/oppia/.pylintrc"]] /\
  result (script env_no_jscs)
  = Ret [""; "SUCCESS   1 Python files linted (0.2 secs)"] /\
  exit_status (result (script env_no_jscs)) = 0%Z.
Proof. repeat split; vm_compute; reflexivity. Qed.

(** ** Further properties of the script *)

(** *** Module level *)

(** When the pylint directory is missing the script stops at module level:
    it prints its three lines, exits with status 1, and nothing else
    happens (git is not asked, no linter runs). *)
Theorem pylint_missing_stops_at_import env :
  os_path_exists env (_PYLINT_PATH env) = false ->
  script env
  = mkRun [Print "";
           Print "ERROR    Please run start.sh first to install pylint ";
           Print "         and its dependencies."]
          0 (Exit 1).
Proof.
  intros H. unfold script, module_level. rewrite H. reflexivity.
Qed.

Lemma pylint_missing_stops_at_import_witness :
  exit_status (result (script env_no_pylint)) = 1%Z /\
  linter_calls (events (script env_no_pylint)) = [] /\
  check_output_calls (events (script env_no_pylint)) = [].
Proof.
  rewrite (pylint_missing_stops_at_import env_no_pylint).
  - repeat split.
  - reflexivity.
Defined.

(** *** [_get_changed_filenames] *)

(** A git command that fails raises an exception that nothing catches: when
    [git diff --name-only] fails the second git command is not run; when
    only the second one fails the first output is lost with it. *)
Theorem _get_changed_filenames_git_failure env n :
  (subprocess_check_output env git_diff = None ->
   _get_changed_filenames env n
   = mkRun [CheckOutput git_diff] n (Raise "CalledProcessError")) /\
  (forall unstaged,
     subprocess_check_output env git_diff = Some unstaged ->
     subprocess_check_output env git_diff_cached = None ->
     _get_changed_filenames env n
     = mkRun [CheckOutput git_diff; CheckOutput git_diff_cached] n
         (Raise "CalledProcessError")).
Proof.
  unfold _get_changed_filenames, check_output, bind, git_diff,
    git_diff_cached.
  split.
  - intros ->. reflexivity.
  - intros unstaged -> . cbn [result events procs]. intros ->. reflexivity.
Qed.

Lemma _get_changed_filenames_git_failure_witness :
  _get_changed_filenames env_no_git 0
  = mkRun [CheckOutput git_diff] 0 (Raise "CalledProcessError").
Proof.
  apply (_get_changed_filenames_git_failure env_no_git 0). reflexivity.
Defined.

Lemma collect_all_files_git_failure env n input_path :
  truthy_path input_path = false ->
  subprocess_check_output env git_diff = None \/
  subprocess_check_output env git_diff_cached = None ->
  result (collect_all_files env input_path n) = Raise "CalledProcessError".
Proof.
  intros Harg Hfail.
  assert (H : result (_get_changed_filenames env n)
              = Raise "CalledProcessError").
  { unfold _get_changed_filenames, check_output, bind.
    fold git_diff. fold git_diff_cached.
    destruct (subprocess_check_output env git_diff) as [u|];
      [|reflexivity].
    cbn [result events procs]. destruct Hfail as [Hf|Hf];
      [discriminate|]. rewrite Hf. reflexivity. }
  unfold collect_all_files.
  destruct input_path as [path|]; cbn [truthy_path] in Harg;
    try rewrite Harg; exact H.
Qed.

Lemma script_raised_early_quiet env exn :
  os_path_exists env (_PYLINT_PATH env) = true ->
  result (candidate_set env 0) = Raise exn ->
  linter_calls (events (script env)) = [].
Proof.
  intros Hpy Hcs.
  rewrite (script_pylint_installed env Hpy). unfold _pre_commit_linter.
  rewrite (bind_Raise _ _ _ _ Hcs). cbn [events].
  destruct (candidate_set_quiet env 0) as [Hp [Hl _]].
  unfold linter_calls. rewrite Hp, Hl. reflexivity.
Qed.

(** Without an explicit path, a failing git command ends the whole run with
    an uncaught exception (exit status 1) before any linter is invoked. *)
Theorem git_failure_ends_run env :
  os_path_exists env (_PYLINT_PATH env) = true ->
  truthy_path (parsed_args_path env) = false ->
  subprocess_check_output env git_diff = None \/
  subprocess_check_output env git_diff_cached = None ->
  result (script env) = Raise "CalledProcessError" /\
  exit_status (result (script env)) = 1%Z /\
  linter_calls (events (script env)) = [].
Proof.
  intros Hpy Harg Hfail.
  assert (Hcs : result (candidate_set env 0) = Raise "CalledProcessError").
  { rewrite candidate_set_result.
    rewrite (resolve_input_path_absent env 0 Harg). cbn [result].
    apply collect_all_files_git_failure; assumption. }
  rewrite (script_raised_early env _ Hpy Hcs).
  repeat split. apply (script_raised_early_quiet env _ Hpy Hcs).
Qed.

Lemma git_failure_ends_run_witness :
  result (script env_no_git) = Raise "CalledProcessError" /\
  exit_status (result (script env_no_git)) = 1%Z /\
  linter_calls (events (script env_no_git)) = [].
Proof.
  apply (git_failure_ends_run env_no_git).
  - reflexivity.
  - reflexivity.
  - left. reflexivity.
Defined.

(** *** [_get_all_files_in_directory] and an explicit path *)

(** The listing of a directory has one entry per file name of every triple
    that [os.walk] yields, nothing dropped and nothing added: its length is
    the total number of file names, and its entries are exactly the paths
    [os.path.relpath(os.path.join(dirpath, name), os.getcwd())].  The
    directory names of the triples never get into it. *)
Theorem _get_all_files_in_directory_lists_files env dir_path :
  List.length (_get_all_files_in_directory env dir_path)
  = list_sum (map (fun t => List.length (snd t)) (os_walk env dir_path)) /\
  forall path,
    In path (_get_all_files_in_directory env dir_path) <->
    exists dirpath dirnames filenames name,
      In (dirpath, dirnames, filenames) (os_walk env dir_path) /\
      In name filenames /\
      path = os_path_relpath env (Py.os_path_join dirpath [name])
               (os_getcwd env).
Proof.
  unfold _get_all_files_in_directory. split.
  - induction (os_walk env dir_path) as [|[[d ds] fs] w IH]; [reflexivity|].
    cbn [flat_map map list_sum snd]. rewrite length_app, length_map, IH.
    reflexivity.
  - intros path. rewrite in_flat_map. split.
    + intros [[[d ds] fs] [Hin Hpath]]. apply in_map_iff in Hpath.
      destruct Hpath as [name [Heq Hname]].
      exists d, ds, fs, name. auto.
    + intros (d & ds & fs & name & Hin & Hname & ->).
      exists (d, ds, fs). split; [exact Hin|].
      apply in_map_iff. exists name. auto.
Qed.

Lemma collect_all_files_directory env n path :
  Py.truthy path = true ->
  os_path_isfile env path = false ->
  collect_all_files env (Some path) n
  = mkRun [] n (Ret (_get_all_files_in_directory env path)).
Proof.
  intros Hpath Hfile. unfold collect_all_files.
  rewrite Hpath, Hfile. reflexivity.
Qed.

(** With a resolved explicit path, the candidate set is what
    [collect_all_files] gives for it, and git is not asked. *)
Lemma candidate_set_explicit env n path all_files :
  parsed_args_path env = Some path ->
  Py.truthy path = true ->
  os_path_exists env (Py.os_path_join (os_getcwd env) [path]) = true ->
  collect_all_files env (Some (Py.os_path_join (os_getcwd env) [path])) n
  = mkRun [] n (Ret all_files) ->
  result (candidate_set env n) = Ret all_files /\
  check_output_calls (events (candidate_set env n)) = [].
Proof.
  intros Harg Hpath Hex Hcol.
  pose proof (resolve_input_path_found env n path Harg Hpath Hex) as Hres.
  split.
  - rewrite candidate_set_result, Hres. cbn [result]. rewrite Hcol.
    reflexivity.
  - assert (Hprints : forall evs,
              forallb is_print evs = true -> check_output_calls evs = []).
    { induction evs as [|e evs IH]; [reflexivity|].
      destruct e; cbn; auto; discriminate. }
    assert (Happ : forall evs1 evs2,
              check_output_calls (evs1 ++ evs2)
              = (check_output_calls evs1 ++ check_output_calls evs2)%list).
    { induction evs1 as [|e evs1 IH]; intros evs2; [reflexivity|].
      destruct e; cbn; rewrite IH; reflexivity. }
    unfold candidate_set.
    rewrite (bind_Ret _ _ _ _ (check_root_directory_ret env n)).
    cbn [events].
    destruct (check_root_directory_tame env n) as [Hroot ->].
    rewrite (bind_Ret _ _ n (Some (Py.os_path_join (os_getcwd env) [path])))
      by (rewrite Hres; reflexivity).
    rewrite Hres. cbn [events procs app].
    rewrite (bind_Ret _ _ _ _ (check_jscs_installed_ret env n)).
    cbn [events].
    destruct (check_jscs_installed_tame env n) as [Hjscs ->].
    rewrite Hcol. cbn [events]. rewrite app_nil_r, Happ.
    rewrite (Hprints _ Hroot), (Hprints _ Hjscs). reflexivity.
Qed.

(** With an explicit path that exists and is not a file, the candidate set
    is the recursive listing of that directory, and git is not asked. *)
Theorem explicit_directory_candidate_set env n path :
  parsed_args_path env = Some path ->
  Py.truthy path = true ->
  os_path_exists env (Py.os_path_join (os_getcwd env) [path]) = true ->
  os_path_isfile env (Py.os_path_join (os_getcwd env) [path]) = false ->
  result (candidate_set env n)
  = Ret (_get_all_files_in_directory env
           (Py.os_path_join (os_getcwd env) [path])) /\
  check_output_calls (events (candidate_set env n)) = [].
Proof.
  intros Harg Hpath Hex Hfile.
  apply (candidate_set_explicit env n path _ Harg Hpath Hex).
  apply collect_all_files_directory; [|exact Hfile].
  apply os_path_join_truthy, Hpath.
Qed.

Lemma explicit_directory_candidate_set_witness :
  result (candidate_set env_directory 0)
  = Ret ["/home/dev/oppia/core/a.py"; "/home/dev/oppia/core/b.js";
         "/home/dev/oppia/core/c.txt"; "/home/dev/oppia/core/sub/d.js"] /\
  check_output_calls (events (candidate_set env_directory 0)) = [].
Proof.
  apply (explicit_directory_candidate_set env_directory 0 "core");
    reflexivity.
Defined.

(** How the explicit path is resolved: an absolute --path is taken as it
    is; a relative one is put after the working directory, with a "/"
    between the two when the working directory does not end with one. *)
Theorem explicit_path_resolution env n path :
  parsed_args_path env = Some path ->
  Py.truthy path = true ->
  os_path_exists env (Py.os_path_join (os_getcwd env) [path]) = true ->
  (Py.startswith path "/" = true ->
   result (resolve_input_path env n) = Ret (Some path)) /\
  (Py.startswith path "/" = false ->
   Py.truthy (os_getcwd env) = true ->
   Py.endswith (os_getcwd env) "/" = false ->
   result (resolve_input_path env n)
   = Ret (Some (os_getcwd env ++ "/" ++ path))).
Proof.
  intros Harg Hpath Hex.
  rewrite (resolve_input_path_found env n path Harg Hpath Hex).
  cbn [result]. unfold Py.os_path_join. cbn [fold_left]. split.
  - intros ->. reflexivity.
  - intros -> Hcwd ->. unfold Py.truthy in Hcwd.
    destruct (os_getcwd env =? "")%string; [discriminate|]. reflexivity.
Qed.

Lemma explicit_path_resolution_witness :
  result (resolve_input_path env_single_file 0)
  = Ret (Some ("/home/dev/oppia" ++ "/" ++ "core/a.js")).
Proof.
  pose proof (explicit_path_resolution env_single_file 0 "core/a.js"
                eq_refl eq_refl eq_refl) as [_ H].
  apply H; reflexivity.
Defined.

Lemma bind_ext {A B} (m : M A) (k1 k2 : A -> M B) n :
  (forall a n', k1 a n' = k2 a n') -> bind m k1 n = bind m k2 n.
Proof.
  intros H. unfold bind. destruct (result (m n)); [|reflexivity..].
  rewrite H. reflexivity.
Qed.

Lemma bind_ret_run {A B} (m : M A) (k : A -> M B) n a :
  m n = mkRun [] n (Ret a) -> bind m k n = k a n.
Proof.
  intros H. unfold bind. rewrite H. cbn [result events procs app].
  destruct (k a n). reflexivity.
Qed.

(** An empty --path is no path: the run is the one without --path. *)
Theorem empty_path_is_no_path env :
  script (with_path env (Some "")) = script (with_path env None).
Proof.
  unfold script. apply bind_ext. intros _ n.
  unfold _pre_commit_linter.
  change (lint_and_report (with_path env (Some "")))
    with (lint_and_report (with_path env None)).
  assert (Hcs : candidate_set (with_path env (Some "")) n
                = candidate_set (with_path env None) n).
  { unfold candidate_set. apply bind_ext. intros _ n1.
    rewrite (bind_ret_run (resolve_input_path (with_path env (Some "")))
               _ n1 (Some "")) by reflexivity.
    rewrite (bind_ret_run (resolve_input_path (with_path env None))
               _ n1 None) by reflexivity.
    apply bind_ext. intros _ n2. reflexivity. }
  unfold bind. rewrite Hcs. reflexivity.
Qed.

(** *** Linting *)

Lemma filter_none {A} (p : A -> bool) l :
  (forall x, In x l -> p x = false) -> filter p l = [].
Proof.
  induction l as [|x l IH]; intros H; [reflexivity|].
  cbn [filter]. rewrite (H x (or_introl eq_refl)).
  apply IH. intros y Hy. apply H. right. exact Hy.
Qed.

(** When no candidate has a recognized extension (in particular when there
    is no candidate at all) nothing is linted: no child process, no call of
    pylint, the two summaries are empty and the report is one empty line
    between them. *)
Theorem nothing_to_lint env all_files n :
  (forall filename, In filename all_files -> recognized filename = false) ->
  lint_and_report env all_files n
  = mkRun [Print (String Py.LF "Starting jscs linter...");
           Print "----------------------------------------";
           Print "There are no JavaScript files to lint.";
           Print "----------------------------------------";
           Print (String Py.LF "Starting pylint...");
           Print "----------------------------------------";
           Print "There are no Python files to lint.";
           Print "----------------------------------------";
           Print (String Py.LF "");
           Print ""]
          n (Ret [""; ""]).
Proof.
  intros Hnone. unfold lint_and_report.
  assert (Hjs : js_files_to_lint all_files = []).
  { apply filter_none. intros f Hf. specialize (Hnone f Hf).
    unfold recognized in Hnone. apply orb_false_elim in Hnone. tauto. }
  assert (Hpy : py_files_to_lint all_files = []).
  { apply filter_none. intros f Hf. specialize (Hnone f Hf).
    unfold recognized in Hnone. apply orb_false_elim in Hnone. tauto. }
  rewrite Hjs, Hpy. reflexivity.
Qed.

Lemma nothing_to_lint_witness :
  result (lint_and_report env_both_lists ["notes.txt"; "Makefile"] 0)
  = Ret [""; ""].
Proof.
  rewrite (nothing_to_lint env_both_lists ["notes.txt"; "Makefile"] 0).
  - reflexivity.
  - intros f [<-|[<-|[]]]; reflexivity.
Defined.

(** When the child process of every file of a JavaScript bucket is started
    and none of them writes to its error stream, the child processes are
    one per file, with the arguments [node_path, jscs_path, config, file],
    in the order of the bucket (a file listed twice is linted twice); a
    FAILED summary counts the files with diagnostic output, a SUCCESS
    summary the files of the bucket. *)
Theorem js_bucket_linted_in_order env node jscs cfg files n :
  let outs := js_outcomes env [node; jscs; cfg] n files in
  let r := _lint_js_files env node jscs cfg files n in
  Forall (fun o => is_tool_error o = false) outs ->
  popen_calls (events r) = map (fun f => [node; jscs; cfg; f]) files /\
  procs r = n + List.length files /\
  result r
  = Ret match files with
        | [] => ""
        | _ =>
            if (count_violations outs =? 0)%nat then
              "SUCCESS   " ++ Py.str (List.length files)
              ++ " JavaScript files linted (" ++ js_secs env ++ " secs)"
            else
              "FAILED    " ++ Py.str (count_violations outs)
              ++ " JavaScript files"
        end.
Proof.
  cbv zeta. intros Hok.
  destruct (_lint_js_files_run env node jscs cfg files n) as [_ Hrun].
  rewrite (first_tool_error_None _ Hok) in Hrun.
  destruct Hrun as [Hres [Hcalls Hprocs]].
  split; [exact Hcalls|]. split; [exact Hprocs|].
  rewrite Hres. unfold js_summary. destruct files as [|f rest];
    [reflexivity|].
  destruct (count_violations _ =? 0)%nat; reflexivity.
Qed.

Lemma js_bucket_linted_in_order_witness :
  popen_calls
    (events (_lint_js_files env_violation "node" "jscs" "--config=.jscsrc"
               ["a.js"; "b.js"; "a.js"] 0))
  = [["node"; "jscs"; "--config=.jscsrc"; "a.js"];
     ["node"; "jscs"; "--config=.jscsrc"; "b.js"];
     ["node"; "jscs"; "--config=.jscsrc"; "a.js"]] /\
  procs (_lint_js_files env_violation "node" "jscs" "--config=.jscsrc"
           ["a.js"; "b.js"; "a.js"] 0) = 3 /\
  result (_lint_js_files env_violation "node" "jscs" "--config=.jscsrc"
            ["a.js"; "b.js"; "a.js"] 0)
  = Ret "FAILED    2 JavaScript files".
Proof.
  apply (js_bucket_linted_in_order env_violation "node" "jscs"
           "--config=.jscsrc" ["a.js"; "b.js"; "a.js"] 0).
  repeat constructor.
Defined.





(** [_lint_py_files] never ends the process itself and spawns no child
    process: a [SystemExit] of pylint is always caught, so the outcome is a
    summary or, only when [lint.Run] raises another exception for a
    non-empty bucket, that exception. *)
Theorem _lint_py_files_never_exits env rcfile files n :
  let r := _lint_py_files env rcfile files n in
  procs r = n /\
  (forall c, result r <> Exit c) /\
  (forall exn,
     result r = Raise exn <->
     files <> [] /\ lint_Run env (files ++ [rcfile])%list = RunRaises exn).
Proof.
  cbv zeta.
  destruct (_lint_py_files_run env rcfile files n) as [_ [Hprocs Hrun]].
  split; [exact Hprocs|].
  destruct files as [|f rest].
  - destruct Hrun as [Hres _]. rewrite Hres. split.
    + discriminate.
    + intros exn. split; [discriminate | intros [H _]; contradiction].
  - destruct Hrun as [_ Hres].
    destruct (lint_Run env ((f :: rest) ++ [rcfile])%list) as [|str_e|e];
      rewrite Hres; split; try discriminate; intros exn; split;
      try discriminate; try (intros [_ H]; discriminate).
    + intros H. injection H as ->. split; [discriminate | reflexivity].
    + intros [_ H]. injection H as ->. reflexivity.
Qed.

(** When [lint.Run] comes back without raising [SystemExit], the Python
    bucket counts as linted without errors. *)
Theorem lint_Run_returning_is_success env rcfile files n :
  files <> [] ->
  lint_Run env (files ++ [rcfile])%list = RunReturns ->
  result (_lint_py_files env rcfile files n)
  = Ret ("SUCCESS   " ++ Py.str (List.length files)
         ++ " Python files linted (" ++ py_secs env ++ " secs)").
Proof.
  intros Hne Hrun.
  destruct (_lint_py_files_run env rcfile files n) as [_ [_ Hres]].
  destruct files as [|f rest]; [contradiction|].
  destruct Hres as [_ Hres]. rewrite Hrun in Hres. exact Hres.
Qed.

Lemma lint_Run_returning_is_success_witness :
  result (_lint_py_files
            (checkout None [] "" "" all_clean RunReturns)
            "--rcfile=.pylintrc" ["c.py"; "d.py"] 0)
  = Ret "SUCCESS   2 Python files linted (0.2 secs)".
Proof.
  apply (lint_Run_returning_is_success
           (checkout None [] "" "" all_clean RunReturns)
           "--rcfile=.pylintrc" ["c.py"; "d.py"] 0).
  - discriminate.
  - reflexivity.
Defined.

(** *** The run as a whole *)

(** An exception of pylint that is no [SystemExit] ends the run with exit
    status 1 and without a report, after the JavaScript bucket has been
    linted. *)
Theorem pylint_exception_ends_run env all_files exn :
  os_path_exists env (_PYLINT_PATH env) = true ->
  result (candidate_set env 0) = Ret all_files ->
  Forall (fun o => is_tool_error o = false)
    (js_bucket_outcomes env all_files 0) ->
  py_files_to_lint all_files <> [] ->
  lint_Run env (py_files_to_lint all_files ++ [config_pylint env])%list
  = RunRaises exn ->
  result (script env) = Raise exn /\
  exit_status (result (script env)) = 1%Z /\
  popen_calls (events (script env))
  = map (jscs_argv env) (js_files_to_lint all_files).
Proof.
  intros Hpy Hcs Hok Hne Hraise.
  destruct (script_from_candidates env all_files Hpy Hcs)
    as [Hres [Hpopen _]].
  pose proof (lint_and_report_run env all_files 0) as Hrun. cbv zeta in Hrun.
  rewrite (first_tool_error_None _ Hok) in Hrun.
  destruct Hrun as [Hcalls Hrun].
  destruct (py_files_to_lint all_files) as [|p py]; [contradiction|].
  destruct Hrun as [_ Hrun]. rewrite Hraise in Hrun.
  rewrite Hres, Hpopen, Hrun, Hcalls. auto.
Qed.

Lemma pylint_exception_ends_run_witness :
  result (script env_pylint_raises) = Raise "ImportError" /\
  exit_status (result (script env_pylint_raises)) = 1%Z /\
  popen_calls (events (script env_pylint_raises))
  = map (jscs_argv env_pylint_raises) (js_files_to_lint ["a.js"; "c.py"]).
Proof.
  apply (pylint_exception_ends_run env_pylint_raises ["a.js"; "c.py"]
           "ImportError").
  - reflexivity.
  - vm_compute. reflexivity.
  - repeat constructor.
  - discriminate.
  - reflexivity.
Defined.

(** A run that reaches its report has exactly two summaries, the one of the
    JavaScript bucket first and the one of the Python bucket second, each of
    them empty or starting with SUCCESS or FAILED; a summary is empty
    exactly when its bucket is. *)
Theorem report_has_two_summaries env summary_messages :
  result (script env) = Ret summary_messages ->
  exists all_files js_message py_message js_status py_status,
    result (candidate_set env 0) = Ret all_files /\
    summary_messages = [js_message; py_message] /\
    summary_status js_message = Some js_status /\
    summary_status py_message = Some py_status /\
    (js_status = NotApplicable <-> js_files_to_lint all_files = []) /\
    (py_status = NotApplicable <-> py_files_to_lint all_files = []).
Proof.
  intros Hret.
  destruct (os_path_exists env (_PYLINT_PATH env)) eqn:Hpy.
  2:{ destruct (script_pylint_missing env Hpy) as [H _]. congruence. }
  destruct (result (candidate_set env 0)) as [all_files|c|exn] eqn:Hcs.
  2:{ destruct (script_stopped_early env c Hpy Hcs) as [H _]. congruence. }
  2:{ pose proof (script_raised_early env exn Hpy Hcs). congruence. }
  destruct (script_from_candidates env all_files Hpy Hcs) as [Hres _].
  rewrite Hret in Hres.
  pose proof (lint_and_report_run env all_files 0) as Hrun. cbv zeta in Hrun.
  destruct (first_tool_error (js_bucket_outcomes env all_files 0)) as [k|].
  { destruct Hrun as [H _]. congruence. }
  destruct Hrun as [_ Hrun].
  assert (Hjs : forall outs,
            exists st,
              summary_status
                (js_summary env (js_files_to_lint all_files) outs) = Some st /\
              (st = NotApplicable <-> js_files_to_lint all_files = [])).
  { intros outs. rewrite summary_status_js.
    destruct (js_files_to_lint all_files) as [|f rest].
    - exists NotApplicable. split; [reflexivity|]. tauto.
    - eexists. split; [reflexivity|].
      destruct (count_violations outs =? 0)%nat; split; discriminate. }
  destruct (Hjs (js_bucket_outcomes env all_files 0)) as [jst [Hjst Hjna]].
  exists all_files.
  destruct (py_files_to_lint all_files) as [|p py] eqn:Hbucket.
  - destruct Hrun as [H _]. rewrite H in Hres. injection Hres as ->.
    do 2 eexists. exists jst, NotApplicable.
    repeat split; try reflexivity; try tauto; apply Hjna.
  - destruct Hrun as [_ Hrun].
    assert (Hmsgs : summary_messages
                    = [js_summary env (js_files_to_lint all_files)
                         (js_bucket_outcomes env all_files 0);
                       py_summary env (p :: py)
                         (py_failed
                            (lint_Run env ((p :: py) ++ [config_pylint env])))]).
    { destruct (lint_Run env ((p :: py) ++ [config_pylint env]));
        congruence. }
    do 2 eexists.
    exists jst,
      (if py_failed (lint_Run env ((p :: py) ++ [config_pylint env]))
       then Failure else Success).
    split; [reflexivity|]. split; [exact Hmsgs|]. split; [exact Hjst|].
    split; [apply summary_status_py|]. split; [exact Hjna|].
    match goal with |- context [if ?b then _ else _] => destruct b end;
      (split; [discriminate|]); intros H; discriminate H.
Qed.

Lemma report_has_two_summaries_witness :
  exists all_files js_message py_message js_status py_status,
    result (candidate_set env_both_lists 0) = Ret all_files /\
    ["FAILED    2 JavaScript files"; "FAILED    Python linting failed"]
    = [js_message; py_message] /\
    summary_status js_message = Some js_status /\
    summary_status py_message = Some py_status /\
    (js_status = NotApplicable <-> js_files_to_lint all_files = []) /\
    (py_status = NotApplicable <-> py_files_to_lint all_files = []).
Proof.
  apply (report_has_two_summaries env_both_lists).
  vm_compute. reflexivity.
Defined.

(** The JavaScript bucket is linted before pylint is called: the events of
    linting split in two parts, the first without a call of pylint and the
    second without a jscs child process. *)
Theorem js_linted_before_python env all_files n :
  exists evs1 evs2,
    events (lint_and_report env all_files n) = (evs1 ++ evs2)%list /\
    lint_run_calls evs1 = [] /\
    popen_calls evs2 = [].
Proof.
  unfold lint_and_report. rewrite print_bind. cbn [events].
  destruct (_lint_js_files_run env (node_path env) (jscs_path env)
              (config_jscsrc env) (js_files_to_lint all_files) n)
    as [Hnone _].
  exists (Print (String Py.LF "Starting jscs linter...")
          :: events (_lint_js_files env (node_path env) (jscs_path env)
                       (config_jscsrc env) (js_files_to_lint all_files) n)).
  destruct (result (_lint_js_files env (node_path env) (jscs_path env)
                      (config_jscsrc env) (js_files_to_lint all_files) n))
    as [js_message|c|exn] eqn:Hjs.
  - rewrite (bind_Ret _ _ _ _ Hjs). cbn [events].
    eexists. split; [reflexivity|]. split; [exact Hnone|].
    rewrite print_bind. cbn [events popen_calls].
    match goal with
    | |- context [bind ?m ?k ?p] =>
        destruct (_lint_py_files_run env (config_pylint env)
                    (py_files_to_lint all_files) p) as [Hpopen _];
        destruct (result (m p)) as [py_message|c|exn] eqn:Hpy;
        [ rewrite (bind_Ret _ _ _ _ Hpy)
        | rewrite (bind_Exit _ _ _ _ Hpy)
        | rewrite (bind_Raise _ _ _ _ Hpy) ]
    end; cbn [events]; [|exact Hpopen..].
    rewrite popen_calls_app, Hpopen. reflexivity.
  - rewrite (bind_Exit _ _ _ _ Hjs). cbn [events].
    exists []. rewrite app_nil_r. auto.
  - rewrite (bind_Raise _ _ _ _ Hjs). cbn [events].
    exists []. rewrite app_nil_r. auto.
Qed.

(** *** The router *)

Lemma endswith_js_not_py filename :
  Py.endswith filename ".js" = true -> Py.endswith filename ".py" = false.
Proof.
  unfold Py.endswith. cbn [String.length].
  destruct (3 <=? String.length filename)%nat; [|discriminate].
  intros H. apply String.eqb_eq in H. rewrite H. reflexivity.
Qed.

(** No file is in both buckets, and every candidate is in exactly one of
    three places: the JavaScript bucket, the Python bucket, or left out. *)
Theorem router_partitions_candidates all_files :
  (forall filename,
     In filename (js_files_to_lint all_files) ->
     ~ In filename (py_files_to_lint all_files)) /\
  List.length (js_files_to_lint all_files)
  + List.length (py_files_to_lint all_files)
  + List.length (filter (fun f => negb (recognized f)) all_files)
  = List.length all_files.
Proof.
  unfold js_files_to_lint, py_files_to_lint. split.
  - intros f Hjs Hpy. apply filter_In in Hjs. apply filter_In in Hpy.
    destruct Hjs as [_ Hjs]. destruct Hpy as [_ Hpy].
    rewrite (endswith_js_not_py f Hjs) in Hpy. discriminate.
  - induction all_files as [|f l IH]; [reflexivity|].
    cbn [filter]. unfold recognized at 1.
    destruct (Py.endswith f ".js") eqn:Hjs.
    + rewrite (endswith_js_not_py f Hjs). cbn [orb negb List.length].
      lia.
    + destruct (Py.endswith f ".py"); cbn [orb negb List.length]; lia.
Qed.

Lemma router_partitions_candidates_witness :
  ~ In "a.js" (py_files_to_lint ["a.js"; "notes.txt"; "c.py"]).
Proof.
  destruct (router_partitions_candidates ["a.js"; "notes.txt"; "c.py"])
    as [H _].
  apply H. left. reflexivity.
Defined.

Lemma substring_whole s : substring 0 (String.length s) s = s.
Proof.
  induction s as [|c s IH]; [reflexivity|].
  cbn [String.length substring]. rewrite IH. reflexivity.
Qed.

Lemma substring_split s :
  forall k,
    k <= String.length s ->
    substring 0 k s ++ substring k (String.length s - k) s = s.
Proof.
  induction s as [|c s IH]; intros k Hk.
  - destruct k; [reflexivity | cbn in Hk; lia].
  - destruct k as [|k].
    + rewrite Nat.sub_0_r, substring_whole. reflexivity.
    + cbn [String.length] in *. cbn [Nat.sub substring append].
      rewrite IH by lia. reflexivity.
Qed.

Lemma length_append s1 s2 :
  String.length (s1 ++ s2) = String.length s1 + String.length s2.
Proof.
  induction s1 as [|c s1 IH]; [reflexivity|].
  cbn [append String.length]. rewrite IH. reflexivity.
Qed.

Lemma substring_suffix p suffix :
  substring (String.length p) (String.length suffix) (p ++ suffix) = suffix.
Proof.
  induction p as [|c p IH]; [apply substring_whole|].
  cbn [String.length append substring]. exact IH.
Qed.

(** [endswith] holds exactly for the strings made of something followed by
    the suffix. *)
Lemma endswith_iff s suffix :
  Py.endswith s suffix = true <-> exists stem, s = stem ++ suffix.
Proof.
  unfold Py.endswith. split.
  - destruct (Nat.leb_spec (String.length suffix) (String.length s))
      as [Hle|Hlt]; [|discriminate].
    intros H. apply String.eqb_eq in H.
    exists (substring 0 (String.length s - String.length suffix) s).
    pose proof (substring_split s (String.length s - String.length suffix))
      as Hs.
    replace (String.length s - (String.length s - String.length suffix))
      with (String.length suffix) in Hs by lia.
    rewrite H in Hs. symmetry. apply Hs. lia.
  - intros [stem ->]. rewrite length_append.
    replace (String.length suffix <=? String.length stem + String.length suffix)%nat
      with true by (symmetry; apply Nat.leb_le; lia).
    replace (String.length stem + String.length suffix - String.length suffix)
      with (String.length stem) by lia.
    rewrite substring_suffix. apply String.eqb_refl.
Qed.

(** A candidate is linted as JavaScript exactly when its name is something
    (possibly nothing) followed by '.js', and as Python exactly when it is
    something followed by '.py'; the comparison is the exact one of
    strings. *)
Theorem bucket_membership all_files filename :
  (In filename (js_files_to_lint all_files) <->
   In filename all_files /\ exists stem, filename = stem ++ ".js") /\
  (In filename (py_files_to_lint all_files) <->
   In filename all_files /\ exists stem, filename = stem ++ ".py").
Proof.
  unfold js_files_to_lint, py_files_to_lint.
  rewrite !filter_In, !endswith_iff. tauto.
Qed.

(** *** The output of git *)

Lemma append_empty_r s : s ++ "" = s.
Proof.
  induction s as [|c s IH]; [reflexivity|].
  cbn [append]. rewrite IH. reflexivity.
Qed.

Lemma append_assoc s1 s2 s3 : (s1 ++ s2) ++ s3 = s1 ++ (s2 ++ s3).
Proof.
  induction s1 as [|c s1 IH]; [reflexivity|].
  cbn [append]. rewrite IH. reflexivity.
Qed.

Lemma splitlines_from_line s :
  forall cur rest,
    one_line s = true ->
    Py.splitlines_from cur (s ++ String Py.LF rest)
    = (cur ++ s) :: Py.splitlines_from "" rest.
Proof.
  induction s as [|c s IH]; intros cur rest Hs.
  - rewrite append_empty_r. reflexivity.
  - cbn [one_line] in Hs. apply andb_prop in Hs. destruct Hs as [Hc Hs].
    apply andb_prop in Hc. destruct Hc as [Hlf Hcr].
    apply negb_true_iff in Hlf. apply negb_true_iff in Hcr.
    cbn [append Py.splitlines_from]. rewrite Hlf, Hcr.
    rewrite (IH _ rest Hs), append_assoc. reflexivity.
Qed.

Lemma lines_cons x l : lines (x :: l) = x ++ String Py.LF (lines l).
Proof.
  unfold lines. destruct l as [|y l]; cbn [map concat].
  - reflexivity.
  - rewrite append_assoc. reflexivity.
Qed.

Lemma splitlines_lines l :
  Forall (fun s => one_line s = true) l -> Py.splitlines (lines l) = l.
Proof.
  unfold Py.splitlines.
  induction 1 as [|x l Hx _ IH]; [reflexivity|].
  rewrite lines_cons, (splitlines_from_line x "" _ Hx), IH. reflexivity.
Qed.

(** When each git command prints its paths one per line, each line ended by
    a newline, [_get_changed_filenames] gives back these paths, the unstaged
    ones first: no path is cut or merged and there is no empty entry after
    the last newline.  In particular two empty outputs give no file. *)
Theorem _get_changed_filenames_reads_lines env n unstaged staged :
  Forall (fun s => one_line s = true) unstaged ->
  Forall (fun s => one_line s = true) staged ->
  subprocess_check_output env git_diff = Some (lines unstaged) ->
  subprocess_check_output env git_diff_cached = Some (lines staged) ->
  result (_get_changed_filenames env n) = Ret (unstaged ++ staged)%list.
Proof.
  intros Hu Hs Hgu Hgs.
  rewrite (_get_changed_filenames_result env n _ _ Hgu Hgs).
  rewrite (splitlines_lines _ Hu), (splitlines_lines _ Hs). reflexivity.
Qed.

Lemma _get_changed_filenames_reads_lines_witness :
  result (_get_changed_filenames env_both_lists 0)
  = Ret (["a.js"; "notes.txt"; "b.js"] ++ ["c.py"; "a.js"])%list.
Proof.
  apply (_get_changed_filenames_reads_lines env_both_lists 0
           ["a.js"; "notes.txt"; "b.js"] ["c.py"; "a.js"]).
  - repeat constructor.
  - repeat constructor.
  - reflexivity.
  - reflexivity.
Defined.

(** *** Exit status *)

Lemma resolve_input_path_exit env n c :
  result (resolve_input_path env n) = Exit c -> c = 0%Z.
Proof.
  unfold resolve_input_path.
  destruct (parsed_args_path env) as [path|]; [|discriminate].
  destruct (Py.truthy path); [|discriminate].
  destruct (negb (os_path_exists env
                    (Py.os_path_join (os_getcwd env) [path])));
    [|discriminate].
  cbn. intros H. injection H as <-. reflexivity.
Qed.

Lemma collect_all_files_no_exit env input_path n c :
  result (collect_all_files env input_path n) <> Exit c.
Proof.
  assert (H : result (_get_changed_filenames env n) <> Exit c).
  { unfold _get_changed_filenames, check_output, bind.
    destruct (subprocess_check_output env ["git"; "diff"; "--name-only"]);
      cbn [result events procs]; [|discriminate].
    destruct (subprocess_check_output env
                ["git"; "diff"; "--cached"; "--name-only";
                 "--diff-filter=ACM"]); discriminate. }
  unfold collect_all_files. destruct input_path as [path|]; [|exact H].
  destruct (Py.truthy path); [|exact H].
  destruct (os_path_isfile env path); discriminate.
Qed.

(** For every run whose command line the argument parser accepts, the
    process ends with exit status 0 or 1: the script itself only calls
    [sys.exit] with 0 or 1, the [SystemExit] of pylint is caught, and an
    uncaught exception gives status 1. *)
Theorem exit_status_is_0_or_1 env :
  exit_status (result (script env)) = 0%Z \/
  exit_status (result (script env)) = 1%Z.
Proof.
  destruct (os_path_exists env (_PYLINT_PATH env)) eqn:Hpy.
  2:{ destruct (script_pylint_missing env Hpy) as [-> _]. right. reflexivity. }
  destruct (result (candidate_set env 0)) as [all_files|c|exn] eqn:Hcs.
  - destruct (script_from_candidates env all_files Hpy Hcs) as [-> _].
    pose proof (lint_and_report_run env all_files 0) as Hrun.
    cbv zeta in Hrun.
    destruct (first_tool_error (js_bucket_outcomes env all_files 0)).
    + destruct Hrun as [-> _]. right. reflexivity.
    + destruct Hrun as [_ Hrun].
      destruct (py_files_to_lint all_files) as [|p py].
      * destruct Hrun as [-> _]. left. reflexivity.
      * destruct Hrun as [_ Hrun].
        destruct (lint_Run env ((p :: py) ++ [config_pylint env]));
          rewrite Hrun; [left | left | right]; reflexivity.
  - destruct (script_stopped_early env c Hpy Hcs) as [-> _].
    rewrite candidate_set_result in Hcs.
    destruct (result (resolve_input_path env 0)) as [input_path|c'|exn]
      eqn:Hres.
    + exfalso. exact (collect_all_files_no_exit env input_path 0 c Hcs).
    + injection Hcs as <-.
      rewrite (resolve_input_path_exit env 0 c' Hres). left. reflexivity.
    + discriminate.
  - rewrite (script_raised_early env exn Hpy Hcs). right. reflexivity.
Qed.
